(** * launchpad.net/juju/state: the Service entity

    A shallow embedding of [Service] (package [state]) and of the
    collaborators its methods call, with the properties of the
    topology/entity/config subsystem stated over it. The grant and revoke
    commands of [cmd/juju/model] follow, with their own properties.

    Conventions.
    - Go's [(value, error)] results are values of [result]; a panic (the
      failed type assertion of [CharmURL]) and the exhaustion of the retry
      budget of the transaction engine are outcomes of their own.
    - The coordination store is threaded explicitly: a method of the source
      that talks to ZooKeeper is a function [ZK -> result A * ZK]; the store
      it returns is the store after the call, also when the call fails. *)

From Stdlib Require Import String Ascii DecimalString DecimalNat.
From stdpp Require Import base option gmap strings list fin_maps.

Open Scope string_scope.

(** ** Errors *)

(** The ZooKeeper result codes the source tests with [zookeeper.IsError]. *)
Inductive zkcode : Type :=
| ZNONODE
| ZNODEEXISTS
| ZBADVERSION.

Global Instance zkcode_eq_dec : EqDecision zkcode.
Proof. solve_decision. Defined.

(** Go [error] values met in this package: the sentinel [stateChanged], an
    error of the ZooKeeper binding, an error built from text by
    [errors.New] or [fmt.Errorf], and an error annotated by
    [errorContextf]. *)
Inductive error : Type :=
| stateChanged
| ZkError (c : zkcode)
| Errorf (msg : string)
| Context (ctx : string) (inner : error).

Global Instance error_eq_dec : EqDecision error.
Proof. solve_decision. Defined.

Definition zkcode_text (c : zkcode) : string :=
  match c with
  | ZNONODE => "no node"
  | ZNODEEXISTS => "node exists"
  | ZBADVERSION => "bad version"
  end.

(** [err.Error()], also what the verb [%v] prints for an error. *)
Fixpoint Error (e : error) : string :=
  match e with
  | stateChanged => "environment state has changed"
  | ZkError c => "zookeeper: " ++ zkcode_text c
  | Errorf msg => msg
  | Context ctx inner => ctx ++ ": " ++ Error inner
  end.

(** The kind of an error: what is left once the annotations are peeled. *)
Fixpoint kind (e : error) : error :=
  match e with
  | Context _ inner => kind inner
  | _ => e
  end.


(** [zookeeper.IsError(err, code)]. *)
Definition IsError (e : error) (c : zkcode) : bool :=
  match e with
  | ZkError c' => bool_decide (c' = c)
  | _ => false
  end.

(** ** Results *)

Inductive result (A : Type) : Type :=
| Ok (a : A)
| Err (e : error)
| Panic
| OutOfFuel.
Arguments Ok {A} a.
Arguments Err {A} e.
Arguments Panic {A}.
Arguments OutOfFuel {A}.

Definition is_Err {A} (r : result A) : Prop :=
  match r with Err _ => True | _ => False end.

Definition is_Ok {A} (r : result A) : Prop :=
  match r with Ok _ => True | _ => False end.

(** Modelled from the spec: [errorContextf(&err, format, args...)], deferred
    by the methods of [Service] and declared outside the files at hand.
    Section 7: an operation "wraps lower-level errors with the entity's
    identity" and "never changes error kind". It acts on the error result
    only. *)
Definition errorContextf {A} (ctx : string) (r : result A) : result A :=
  match r with
  | Err e => Err (Context ctx e)
  | _ => r
  end.

(** The verb [%q] applied to a string, as [strconv.Quote] writes it: the
    text between double quotes, a double quote and a backslash each behind a
    backslash, the control characters 7 to 13 by their letter, every other
    byte below 32 and the byte 127 as [\x] and two hexadecimal digits. A
    byte above 127 is kept: that is what [strconv.Quote] does with the bytes
    of a printable character in UTF-8 (it escapes the others). *)
Definition dquote : string := String (ascii_of_nat 34) EmptyString.
Definition backslash : string := String (ascii_of_nat 92) EmptyString.

Definition hex_digit (n : nat) : string :=
  match String.get n "0123456789abcdef" with
  | Some c => String c EmptyString
  | None => EmptyString
  end.

Definition quote_byte (a : ascii) : string :=
  let n := nat_of_ascii a in
  if Nat.eqb n 34 then backslash ++ dquote
  else if Nat.eqb n 92 then backslash ++ backslash
  else if Nat.eqb n 7 then backslash ++ "a"
  else if Nat.eqb n 8 then backslash ++ "b"
  else if Nat.eqb n 12 then backslash ++ "f"
  else if Nat.eqb n 10 then backslash ++ "n"
  else if Nat.eqb n 13 then backslash ++ "r"
  else if Nat.eqb n 9 then backslash ++ "t"
  else if Nat.eqb n 11 then backslash ++ "v"
  else if Nat.ltb n 32 || Nat.eqb n 127
       then backslash ++ "x" ++ hex_digit (n / 16) ++ hex_digit (n mod 16)
  else String a EmptyString.

Fixpoint quote_bytes (s : string) : string :=
  match s with
  | EmptyString => EmptyString
  | String a rest => quote_byte a ++ quote_bytes rest
  end.

Definition quote (s : string) : string := dquote ++ quote_bytes s ++ dquote.

(** ** Text helpers *)

Fixpoint zeros (n : nat) : string :=
  match n with
  | 0 => ""
  | S n' => "0" ++ zeros n'
  end.

Definition decimal (n : nat) : string := NilEmpty.string_of_uint (Nat.to_uint n).

(** The suffix of a sequential node: [%010d]. *)
Definition pad10 (n : nat) : string :=
  let d := decimal n in zeros (10 - String.length d) ++ d.

(** A natural number written in decimal digits, at least one. *)
Definition parse_nat (s : string) : option nat :=
  match s with
  | "" => None
  | _ => Nat.of_uint <$> NilEmpty.uint_of_string s
  end.

(** [split_last c s]: the text before and after the last [c] of [s]. *)
Fixpoint split_last (c : ascii) (s : string) : option (string * string) :=
  match s with
  | EmptyString => None
  | String a rest =>
    match split_last c rest with
    | Some (before, after) => Some (String a before, after)
    | None => if Ascii.eqb a c then Some (EmptyString, rest) else None
    end
  end.

Fixpoint strip_trailing (c : ascii) (s : string) : string :=
  match s with
  | EmptyString => EmptyString
  | String a rest =>
    match strip_trailing c rest with
    | EmptyString => if Ascii.eqb a c then EmptyString else String a EmptyString
    | rest' => String a rest'
    end
  end.

Definition slash : ascii := ascii_of_nat 47.
Definition dash : ascii := ascii_of_nat 45.

(** [path.Base]: the last element of a path. *)
Definition Base (p : string) : string :=
  match p with
  | "" => "."
  | _ =>
    match strip_trailing slash p with
    | "" => "/"
    | p' => match split_last slash p' with
            | Some (_, last) => last
            | None => p'
            end
    end
  end.

(** The slice [s[n:]]. *)
Fixpoint drop_prefix (n : nat) (s : string) : string :=
  match n, s with
  | 0, _ => s
  | S n', String _ rest => drop_prefix n' rest
  | S _, EmptyString => EmptyString
  end.

(** ** The topology document *)

(** Modelled from the spec: the topology document of section 3 (type
    [topology], declared outside the files at hand). A service records its
    name and the set of its unit keys; a unit records the key of its
    service, the key of its principal (empty for a principal unit) and its
    sequence number. The relations of the document play no part in the
    operations below and are left out. *)
Record topoService : Type := {
  svcName : string;
  svcUnits : gset string;
}.

Record topoUnit : Type := {
  unitService : string;
  unitPrincipal : string;
  unitSequence : nat;
}.

Record topology : Type := {
  Services : gmap string topoService;
  Units : gmap string topoUnit;
}.

Global Instance topoService_eq_dec : EqDecision topoService.
Proof. solve_decision. Defined.
Global Instance topoUnit_eq_dec : EqDecision topoUnit.
Proof. solve_decision. Defined.
Global Instance topology_eq_dec : EqDecision topology.
Proof. solve_decision. Defined.

(** [tunit.isPrincipal()]. *)
Definition topoUnit_isPrincipal (u : topoUnit) : bool :=
  bool_decide (unitPrincipal u = "").

(** [t.HasService(key)]. *)
Definition topology_HasService (t : topology) (serviceKey : string) : bool :=
  bool_decide (is_Some (Services t !! serviceKey)).

(** Modelled from the spec: [t.serviceAndUnit(unitKey)], the per-unit record
    together with the service that owns it. It fails when the record is
    missing, when the owning service is missing, or when the service does
    not list the unit (invariant I1 broken). *)
Definition topology_serviceAndUnit (t : topology) (unitKey : string)
  : result (topoService * topoUnit) :=
  match Units t !! unitKey with
  | None => Err (Errorf ("unit with key " ++ quote unitKey ++ " not found"))
  | Some u =>
    match Services t !! unitService u with
    | None =>
      Err (Errorf ("service with key " ++ quote (unitService u) ++ " not found"))
    | Some s =>
      if bool_decide (unitKey ∈ svcUnits s) then Ok (s, u)
      else Err (Errorf ("unit with key " ++ quote unitKey ++ " not found"))
    end
  end.

(** [t.HasUnit(unitKey)]. *)
Definition topology_HasUnit (t : topology) (unitKey : string) : bool :=
  match topology_serviceAndUnit t unitKey with
  | Ok _ => true
  | _ => false
  end.

(** [t.UnitKeys(serviceKey)]: the unit keys registered under a service. *)
Definition topology_UnitKeys (t : topology) (serviceKey : string) : result (list string) :=
  match Services t !! serviceKey with
  | None => Err (Errorf ("service with key " ++ quote serviceKey ++ " not found"))
  | Some s => Ok (elements (svcUnits s))
  end.

(** Modelled from the spec: unit keys are
    [unit-<service-key-suffix>-<store-assigned-sequence>] (section 6);
    [makeUnitKey] builds one, [unitKeyParts] reads one back. *)
Definition makeUnitKey (serviceKey : string) (serviceId : nat) : string :=
  "unit-" ++ drop_prefix (String.length "service-") serviceKey ++ "-" ++ pad10 serviceId.

Definition unitKeyParts (unitKey : string) : option (string * nat) :=
  if String.prefix "unit-" unitKey then
    match split_last dash (drop_prefix (String.length "unit-") unitKey) with
    | Some (suffix, digits) =>
      match parse_nat digits with
      | Some n => Some ("service-" ++ suffix, n)
      | None => None
      end
    | None => None
    end
  else None.

(** Modelled from the spec: [t.AddUnit(unitKey, principalKey)] registers the
    unit under the service its key names, with the given principal
    linkage. *)
Definition topology_AddUnit (t : topology) (unitKey principalKey : string) : result topology :=
  match unitKeyParts unitKey with
  | None => Err (Errorf ("invalid unit key " ++ quote unitKey))
  | Some (serviceKey, seq) =>
    match Services t !! serviceKey with
    | None =>
      Err (Errorf ("service with key " ++ quote serviceKey ++ " not found"))
    | Some s =>
      if bool_decide (is_Some (Units t !! unitKey)) then
        Err (Errorf ("unit " ++ quote unitKey ++ " already in use"))
      else
        Ok {| Services :=
                <[serviceKey := {| svcName := svcName s;
                                   svcUnits := {[unitKey]} ∪ svcUnits s |}]>
                  (Services t);
              Units :=
                <[unitKey := {| unitService := serviceKey;
                                unitPrincipal := principalKey;
                                unitSequence := seq |}]> (Units t) |}
    end
  end.

(** Modelled from the spec: [t.RemoveUnit(unitKey)] drops the per-unit record
    and the entry in the unit set of the owning service. *)
Definition topology_RemoveUnit (t : topology) (unitKey : string) : result topology :=
  match topology_serviceAndUnit t unitKey with
  | Ok (s, u) =>
    Ok {| Services :=
            <[unitService u := {| svcName := svcName s;
                                  svcUnits := svcUnits s ∖ {[unitKey]} |}]>
              (Services t);
          Units := delete unitKey (Units t) |}
  | Err e => Err e
  | Panic => Panic
  | OutOfFuel => OutOfFuel
  end.

(** ** The coordination store *)

(** A setting of a configuration node, [interface{}] in the source. *)
Inductive value : Type :=
| VStr (s : string)
| VNum (n : Z)
| VBool (b : bool).

Global Instance value_eq_dec : EqDecision value.
Proof. solve_decision. Defined.

(** What a node holds. The source stores YAML text; the documents are kept
    here as the data the YAML stands for. *)
Inductive content : Type :=
| Raw (s : string)
| Settings (m : gmap string value)
| Topology (t : topology).

Record znode : Type := {
  data : content;
  version : nat;
}.

(** Modelled from the spec: the coordination store of section 6, a node per
    path with a version stamp, and the counter behind sequential node
    creation. *)
Record ZK : Type := {
  nodes : gmap string znode;
  sequence : nat;
}.

Definition M (A : Type) : Type := ZK -> result A * ZK.

Definition ret {A} (a : A) : M A := fun z => (Ok a, z).

Definition lift {A} (r : result A) : M A := fun z => (r, z).

Definition bind {A B} (m : M A) (k : A -> M B) : M B :=
  fun z =>
    match m z with
    | (Ok a, z') => k a z'
    | (Err e, z') => (Err e, z')
    | (Panic, z') => (Panic, z')
    | (OutOfFuel, z') => (OutOfFuel, z')
    end.

Notation "'do' x <- m ; k" := (bind m (fun x => k))
  (at level 10, x name, m at level 100, k at level 200).

(** [defer errorContextf(&err, ctx)] around a method body. *)
Definition deferred {A} (ctx : string) (m : M A) : M A :=
  fun z => let (r, z') := m z in (errorContextf ctx r, z').

(** Flags of [Create]. *)
Inductive flags : Type :=
| NONE
| SEQUENCE.

(** [zk.Get(path)]: the content and the version stamp. *)
Definition zk_Get (path : string) : M (content * nat) :=
  fun z =>
    match nodes z !! path with
    | Some n => (Ok (data n, version n), z)
    | None => (Err (ZkError ZNONODE), z)
    end.

(** [zk.Exists(path)]: the stamp of the node, [None] for Go's nil. *)
Definition zk_Exists (path : string) : M (option nat) :=
  fun z => (Ok (version <$> nodes z !! path), z).

(** [zk.Create(path, value, flags, acl)]: the path of the node created. *)
Definition zk_Create (path : string) (d : content) (f : flags) : M string :=
  fun z =>
    match f with
    | NONE =>
      match nodes z !! path with
      | Some _ => (Err (ZkError ZNODEEXISTS), z)
      | None =>
        (Ok path, {| nodes := <[path := {| data := d; version := 0 |}]> (nodes z);
                     sequence := sequence z |})
      end
    | SEQUENCE =>
      let actual := path ++ pad10 (sequence z) in
      (Ok actual, {| nodes := <[actual := {| data := d; version := 0 |}]> (nodes z);
                     sequence := S (sequence z) |})
    end.

(** [zk.Set(path, value, version)]: the conditional write. *)
Definition zk_Set (path : string) (d : content) (expected : nat) : M nat :=
  fun z =>
    match nodes z !! path with
    | None => (Err (ZkError ZNONODE), z)
    | Some n =>
      if bool_decide (version n = expected) then
        (Ok (S expected),
         {| nodes := <[path := {| data := d; version := S expected |}]> (nodes z);
            sequence := sequence z |})
      else (Err (ZkError ZBADVERSION), z)
    end.

(** [zk.Delete(path, version)]; [None] is the source's [-1], any version. *)
Definition zk_Delete (path : string) (expected : option nat) : M unit :=
  fun z =>
    match nodes z !! path with
    | None => (Err (ZkError ZNONODE), z)
    | Some n =>
      if match expected with
         | Some v => bool_decide (version n = v)
         | None => true
         end then
        (Ok tt, {| nodes := delete path (nodes z); sequence := sequence z |})
      else (Err (ZkError ZBADVERSION), z)
    end.

(** [p] is [root] or lies beneath it. *)
Definition under (root p : string) : bool :=
  bool_decide (p = root) || String.prefix (root ++ "/") p.

(** Modelled from the spec: [zkRemoveTree(zk, path)], "recursive delete of an
    entity and everything nested under it". *)
Definition zkRemoveTree (path : string) : M unit :=
  fun z =>
    (Ok tt, {| nodes := filter (fun kv => under path kv.1 = false) (nodes z);
               sequence := sequence z |}).

(** ** The transaction engine *)

Definition zkTopologyPath : string := "/topology".

(** [readTopology(zk)] with the version stamp of the document. *)
Definition readTopologyVersion : M (topology * nat) :=
  do dv <- zk_Get zkTopologyPath;
  match dv.1 with
  | Topology t => ret (t, dv.2)
  | _ => lift (Err (Errorf "invalid topology document"))
  end.

(** [readTopology(zk)]. *)
Definition readTopology : M topology :=
  do tv <- readTopologyVersion; ret tv.1.

Section Engine.

(** What the other writers do to the store at the suspension point of an
    attempt, the attempts being numbered by the budget left. *)
Variable others : nat -> ZK -> ZK.

(** Modelled from the spec: [retryTopologyChange(zk, f)] (section 4.1).
    Read the document and its stamp; apply the mutator to a copy; on
    [stateChanged] restart from the read; on another error return it; else
    write back conditionally on the stamp, and restart from the read when
    another writer committed first. The source loops without bound; the
    budget [fuel] bounds the attempts. *)
Fixpoint retryTopologyChange (fuel : nat) (f : topology -> result topology)
  (z : ZK) : result unit * ZK :=
  match fuel with
  | 0 => (OutOfFuel, z)
  | S n =>
    match readTopologyVersion z with
    | (Ok (t, stamp), z1) =>
      match f t with
      | Ok t' =>
        match zk_Set zkTopologyPath (Topology t') stamp (others n z1) with
        | (Ok _, z2) => (Ok tt, z2)
        | (Err e, z2) =>
          if IsError e ZBADVERSION then retryTopologyChange n f z2
          else (Err e, z2)
        | (Panic, z2) => (Panic, z2)
        | (OutOfFuel, z2) => (OutOfFuel, z2)
        end
      | Err e =>
        if bool_decide (e = stateChanged)
        then retryTopologyChange n f (others n z1)
        else (Err e, z1)
      | Panic => (Panic, z1)
      | OutOfFuel => (OutOfFuel, z1)
      end
    | (Err e, z1) => (Err e, z1)
    | (Panic, z1) => (Panic, z1)
    | (OutOfFuel, z1) => (OutOfFuel, z1)
    end
  end.

End Engine.

(** ** Configuration nodes *)

Record ConfigNode : Type := {
  cn_path : string;
  cn_version : nat;
  cn_settings : gmap string value;
}.

(** [cn.Get(key)]. *)
Definition ConfigNode_Get (cn : ConfigNode) (k : string) : option value :=
  cn_settings cn !! k.

(** [cn.Set(key, value)]. *)
Definition ConfigNode_Set (cn : ConfigNode) (k : string) (v : value) : ConfigNode :=
  {| cn_path := cn_path cn;
     cn_version := cn_version cn;
     cn_settings := <[k := v]> (cn_settings cn) |}.

(** Modelled from the spec: [readConfigNode(zk, path)] reads the entry and
    its version stamp (section 6: a read "fails NotFound if absent"). *)
Definition readConfigNode (path : string) : M ConfigNode :=
  do dv <- zk_Get path;
  match dv.1 with
  | Settings m => ret {| cn_path := path; cn_version := dv.2; cn_settings := m |}
  | _ => lift (Err (Errorf "invalid configuration node"))
  end.

(** Modelled from the spec: [cn.Write()], a write accepted only if the stamp
    read with the node still matches the stored one (section 3). *)
Definition ConfigNode_Write (cn : ConfigNode) : M unit :=
  do _ <- zk_Set (cn_path cn) (Settings (cn_settings cn)) (cn_version cn); ret tt.

(** ** Entities *)

(** [Service]: the store handle [st] is the store threaded through [M]. *)
Record Service : Type := {
  s_key : string;
  s_name : string;
}.

Record Unit : Type := {
  u_key : string;
  u_serviceName : string;
  u_isPrincipal : bool;
}.

(** What the source reads of a charm: [ch.Meta().Subordinate]. *)
Record Charm : Type := {
  Subordinate : bool;
}.

(** The collaborators of [Service] that are declared outside the files at
    hand and that the spec leaves open: the charm package, the charm
    collection of the state, the name parser, the methods of [Unit], and the
    environment (the other writers and the retry budget of the engine). *)
Class Collaborators : Type := {
  URL : Type;
  ParseURL : string -> result URL;               (* charm.ParseURL *)
  URL_String : URL -> string;                    (* url.String() *)
  State_Charm : URL -> M Charm;                  (* st.Charm(url) *)
  parseUnitName : string -> result (string * nat);
  Unit_UnassignFromMachine : Unit -> M unit;
  Unit_IsPrincipal : Unit -> M bool;
  Unit_zkPath : Unit -> string;
  Unit_String : Unit -> string;
  others : nat -> ZK -> ZK;
  fuel : nat;
}.

(** A suspension point: the other writers act. *)
Definition suspend `{Collaborators} (n : nat) : M unit :=
  fun z => (Ok tt, others n z).

(** The slice [s[n:]] of the source, which panics past the end. *)
Definition slice_from (n : nat) (s : string) : result string :=
  if bool_decide (n <= String.length s) then Ok (drop_prefix n s) else Panic.

Section Service.

Context `{Collaborators}.

(** [s.String()], which is [s.Name()]. *)
Definition Service_String (s : Service) : string := s_name s.

(** [s.zkPath()]. *)
Definition Service_zkPath (s : Service) : string := "/services/" ++ s_key s.

(** [s.zkConfigPath()]. *)
Definition Service_zkConfigPath (s : Service) : string :=
  Service_zkPath s ++ "/config".

(** [s.zkExposedPath()]. *)
Definition Service_zkExposedPath (s : Service) : string :=
  Service_zkPath s ++ "/exposed".

(** [s.CharmURL()]. The assertion [id.(string)] panics on a setting that
    is not a string. *)
Definition Service_CharmURL (s : Service) : M URL :=
  deferred ("can't get the charm URL of service " ++ quote (Service_String s))
    (do cn <- readConfigNode (Service_zkPath s);
     match ConfigNode_Get cn "charm" with
     | Some id =>
       match id with
       | VStr text => lift (ParseURL text)
       | _ => lift Panic
       end
     | None => lift (Err (Errorf "service has no charm URL"))
     end).

(** [s.SetCharmURL(url)]. [suspend] marks the point between the read and
    the conditional write at which other writers may commit (section 5);
    with no other writer it is a no-op and the body is the source's three
    calls in a row. *)
Definition Service_SetCharmURL (s : Service) (url : URL) : M unit :=
  deferred ("can't set the charm URL of service " ++ quote (Service_String s))
    (do cn <- readConfigNode (Service_zkPath s);
     do _ <- suspend fuel;
     ConfigNode_Write (ConfigNode_Set cn "charm" (VStr (URL_String url)))).

(** [s.Charm()]. *)
Definition Service_Charm (s : Service) : M Charm :=
  do url <- Service_CharmURL s;
  State_Charm url.

(** The mutator of [addUnit]. *)
Definition addUnit_mutator (s : Service) (key principalKey : string)
  (t : topology) : result topology :=
  if negb (topology_HasService t (s_key s)) then Err stateChanged
  else topology_AddUnit t key principalKey.

(** [s.addUnit(principalKey)]. [goyaml.Marshal] of a map of strings does
    not fail; the node holds the settings the YAML stands for. *)
Definition Service_addUnit (s : Service) (principalKey : string) : M Unit :=
  deferred ("can't add unit to service " ++ quote (Service_String s))
    (do url <- Service_CharmURL s;
     let unitData : gmap string value := {[ "charm" := VStr (URL_String url) ]} in
     do suffix <- lift (slice_from (String.length "service-") (s_key s));
     let keyPrefix := Service_zkPath s ++ "/units/unit-" ++ suffix ++ "-" in
     do path <- zk_Create keyPrefix (Settings unitData) SEQUENCE;
     let key := Base path in
     do _ <- retryTopologyChange others fuel (addUnit_mutator s key principalKey);
     ret {| u_key := key;
            u_serviceName := s_name s;
            u_isPrincipal := bool_decide (principalKey = "") |}).

(** [s.AddUnit()]. *)
Definition Service_AddUnit (s : Service) : M Unit :=
  do ch <- Service_Charm s;
  if Subordinate ch then
    lift (Err (Errorf ("cannot directly add units to subordinate service "
                       ++ quote (Service_String s))))
  else Service_addUnit s "".

(** [s.AddUnitSubordinateTo(principal)]. *)
Definition Service_AddUnitSubordinateTo (s : Service) (principal : Unit) : M Unit :=
  do ch <- Service_Charm s;
  if negb (Subordinate ch) then
    lift (Err (Errorf ("can't add unit of principal service "
                       ++ quote (Service_String s) ++ " as a subordinate of "
                       ++ quote (Unit_String principal))))
  else
    do ok <- Unit_IsPrincipal principal;
    if negb ok then
      lift (Err (Errorf "a subordinate unit must be added to a principal unit"))
    else Service_addUnit s (u_key principal).

(** The mutator of [RemoveUnit]. *)
Definition removeUnit_mutator (u : Unit) (t : topology) : result topology :=
  if negb (topology_HasUnit t (u_key u)) then Err (Errorf "unit not found")
  else topology_RemoveUnit t (u_key u).

(** [s.RemoveUnit(unit)]. *)
Definition Service_RemoveUnit (s : Service) (u : Unit) : M unit :=
  do _ <- Unit_UnassignFromMachine u;
  do _ <- retryTopologyChange others fuel (removeUnit_mutator u);
  zkRemoveTree (Unit_zkPath u).

(** [s.Unit(name)]. *)
Definition Service_Unit (s : Service) (name : string) : M Unit :=
  deferred ("can't get unit " ++ quote name ++ " from service "
            ++ quote (Service_String s))
    (do parsed <- lift (parseUnitName name);
     let serviceName := parsed.1 in
     let serviceId := parsed.2 in
     if negb (String.eqb serviceName (s_name s)) then
       lift (Err (Errorf "unit not found"))
     else
       do topology <- readTopology;
       if negb (topology_HasService topology (s_key s)) then
         lift (Err stateChanged)
       else
         let key := makeUnitKey (s_key s) serviceId in
         do su <- lift (topology_serviceAndUnit topology key);
         ret {| u_key := key;
                u_serviceName := s_name s;
                u_isPrincipal := topoUnit_isPrincipal su.2 |}).

(** The loop of [AllUnits]: [units] is the slice assembled so far. *)
Fixpoint assemble_units (s : Service) (t : topology) (keys : list string)
  (units : list Unit) : result (list Unit) :=
  match keys with
  | [] => Ok units
  | key :: rest =>
    match topology_serviceAndUnit t key with
    | Ok su =>
      assemble_units s t rest
        (units ++ [{| u_key := key;
                      u_serviceName := s_name s;
                      u_isPrincipal := topoUnit_isPrincipal su.2 |}])
    | Err err => Err (Errorf ("inconsistent topology: " ++ Error err))
    | Panic => Panic
    | OutOfFuel => OutOfFuel
    end
  end.

(** [s.AllUnits()]. *)
Definition Service_AllUnits (s : Service) : M (list Unit) :=
  deferred ("can't get all units from service " ++ quote (Service_String s))
    (do topology <- readTopology;
     if negb (topology_HasService topology (s_key s)) then
       lift (Err stateChanged)
     else
       do keys <- lift (topology_UnitKeys topology (s_key s));
       lift (assemble_units s topology keys [])).

(** [s.IsExposed()]. *)
Definition Service_IsExposed (s : Service) : M bool :=
  fun z =>
    match zk_Exists (Service_zkExposedPath s) z with
    | (Ok stat, z') => (Ok (bool_decide (stat <> None)), z')
    | (Err err, z') =>
      (Err (Errorf ("can't check if service " ++ quote (Service_String s)
                    ++ " is exposed: " ++ Error err)), z')
    | (Panic, z') => (Panic, z')
    | (OutOfFuel, z') => (OutOfFuel, z')
    end.

(** [s.SetExposed()]. *)
Definition Service_SetExposed (s : Service) : M unit :=
  fun z =>
    match zk_Create (Service_zkExposedPath s) (Raw "") NONE z with
    | (Ok _, z') => (Ok tt, z')
    | (Err err, z') =>
      if negb (IsError err ZNODEEXISTS) then
        (Err (Errorf ("can't set exposed flag for service "
                      ++ quote (Service_String s) ++ ": " ++ Error err)), z')
      else (Ok tt, z')
    | (Panic, z') => (Panic, z')
    | (OutOfFuel, z') => (OutOfFuel, z')
    end.

(** [s.ClearExposed()]. *)
Definition Service_ClearExposed (s : Service) : M unit :=
  fun z =>
    match zk_Delete (Service_zkExposedPath s) None z with
    | (Ok _, z') => (Ok tt, z')
    | (Err err, z') =>
      if negb (IsError err ZNONODE) then
        (Err (Errorf ("can't clear exposed flag for service "
                      ++ quote (Service_String s) ++ ": " ++ Error err)), z')
      else (Ok tt, z')
    | (Panic, z') => (Panic, z')
    | (OutOfFuel, z') => (OutOfFuel, z')
    end.

(** [s.Config()]. *)
Definition Service_Config (s : Service) : M ConfigNode :=
  fun z =>
    match readConfigNode (Service_zkConfigPath s) z with
    | (Err err, z') =>
      (Err (Errorf ("can't get configuration of service "
                    ++ quote (Service_String s) ++ ": " ++ Error err)), z')
    | other => other
    end.

End Service.

(** ** Vocabulary of the statements *)

(** The view [AllUnits] and [Unit] build for a key of service [s]. *)
Definition unit_view (s : Service) (t : topology) (key : string) : Unit :=
  {| u_key := key;
     u_serviceName := s_name s;
     u_isPrincipal := from_option topoUnit_isPrincipal false (Units t !! key) |}.

(** The annotation [Unit] defers. *)
Definition Unit_context (s : Service) (name : string) : string :=
  "can't get unit " ++ quote name ++ " from service " ++ quote (Service_String s).

(** The annotation [CharmURL] defers. *)
Definition CharmURL_context (s : Service) : string :=
  "can't get the charm URL of service " ++ quote (Service_String s).

(** What [CharmURL] makes of the settings of the service node. *)
Definition charm_of_settings `{Collaborators} (m : gmap string value) : result URL :=
  match m !! "charm" with
  | Some (VStr text) => ParseURL text
  | Some _ => Panic
  | None => Err (Errorf "service has no charm URL")
  end.

(** The store once the engine has committed [t'] over stamp [stamp]. *)
Definition committed (t' : topology) (stamp : nat) (z : ZK) : ZK :=
  {| nodes := <[zkTopologyPath := {| data := Topology t'; version := S stamp |}]>
                (nodes z);
     sequence := sequence z |}.




(** ** A deployment to run the methods on *)

(** One choice of collaborators: charm URLs are kept as their text and must
    carry a schema; a charm is a node under [/charms] whose settings say
    whether it is subordinate; unit names are [<serviceName>/<sequence>];
    no unit is assigned to a machine; a unit node lies in the [units]
    collection of its service; no other writer is active. *)
Module Sample.

Definition ParseURL (text : string) : result string :=
  if String.prefix "local:" text || String.prefix "cs:" text then Ok text
  else Err (Errorf ("charm URL has invalid schema: " ++ quote text)).

Definition State_Charm (url : string) : M Charm :=
  do cn <- readConfigNode ("/charms/" ++ url);
  ret {| Subordinate :=
           bool_decide (ConfigNode_Get cn "subordinate" = Some (VBool true)) |}.

Definition parseUnitName (name : string) : result (string * nat) :=
  match split_last slash name with
  | Some (serviceName, digits) =>
    match parse_nat digits with
    | Some n => Ok (serviceName, n)
    | None => Err (Errorf (quote name ++ " is not a valid unit name"))
    end
  | None => Err (Errorf (quote name ++ " is not a valid unit name"))
  end.

Definition Unit_zkPath (u : Unit) : string :=
  match unitKeyParts (u_key u) with
  | Some (serviceKey, _) => "/services/" ++ serviceKey ++ "/units/" ++ u_key u
  | None => "/units/" ++ u_key u
  end.

Definition Unit_String (u : Unit) : string :=
  match unitKeyParts (u_key u) with
  | Some (_, n) => u_serviceName u ++ "/" ++ decimal n
  | None => u_serviceName u
  end.

Definition collaborators : Collaborators :=
  Build_Collaborators
    string                                   (* URL *)
    ParseURL
    (fun url => url)                         (* URL_String *)
    State_Charm
    parseUnitName
    (fun _ => ret tt)                        (* Unit_UnassignFromMachine *)
    (fun u => ret (u_isPrincipal u))         (* Unit_IsPrincipal *)
    Unit_zkPath
    Unit_String
    (fun _ z => z)                           (* others *)
    3.                                       (* fuel *)

Definition wordpress : Service :=
  {| s_key := "service-0000000000"; s_name := "wordpress" |}.

Definition logging : Service :=
  {| s_key := "service-0000000001"; s_name := "logging" |}.

Definition node (d : content) : znode := {| data := d; version := 0 |}.

Definition services : gmap string topoService :=
  {[ "service-0000000000" := {| svcName := "wordpress"; svcUnits := ∅ |};
     "service-0000000001" := {| svcName := "logging"; svcUnits := ∅ |} ]}.

(** Both services deployed, no unit yet. *)
Definition deployed : ZK :=
  {| nodes :=
       {[ zkTopologyPath := node (Topology {| Services := services; Units := ∅ |});
          "/services/service-0000000000" :=
            node (Settings {[ "charm" := VStr "local:series/wordpress-1" ]});
          "/services/service-0000000001" :=
            node (Settings {[ "charm" := VStr "local:series/logging-1" ]});
          "/charms/local:series/wordpress-1" :=
            node (Settings {[ "subordinate" := VBool false ]});
          "/charms/local:series/logging-1" :=
            node (Settings {[ "subordinate" := VBool true ]}) ]};
     sequence := 0 |}.

(** The topology document names no service. *)
Definition vanished : ZK :=
  {| nodes := {[ zkTopologyPath := node (Topology {| Services := ∅; Units := ∅ |}) ]};
     sequence := 0 |}.

Definition unit0 : Unit :=
  {| u_key := "unit-0000000000-0000000000";
     u_serviceName := "wordpress";
     u_isPrincipal := true |}.

Definition unit1 : Unit :=
  {| u_key := "unit-0000000000-0000000001";
     u_serviceName := "wordpress";
     u_isPrincipal := true |}.

Definition wordpress_running : topoService :=
  {| svcName := "wordpress"; svcUnits := {[ u_key unit0; u_key unit1 ]} |}.

(** The document once [wordpress] has two units. *)
Definition two_units : topology :=
  {| Services :=
       {[ "service-0000000000" := wordpress_running;
          "service-0000000001" := {| svcName := "logging"; svcUnits := ∅ |} ]};
     Units :=
       {[ u_key unit0 := {| unitService := "service-0000000000";
                            unitPrincipal := "";
                            unitSequence := 0 |};
          u_key unit1 := {| unitService := "service-0000000000";
                            unitPrincipal := "";
                            unitSequence := 1 |} ]} |}.

(** The store after [wordpress.AddUnit()] twice. *)
Definition running : ZK :=
  (Service_AddUnit (H := collaborators) wordpress
     (Service_AddUnit (H := collaborators) wordpress deployed).2).2.

(** A document that breaks invariant I1: [wordpress] lists a unit key that
    has no per-unit record. *)
Definition orphaned : ZK :=
  {| nodes :=
       {[ zkTopologyPath :=
            node (Topology {| Services := {[ "service-0000000000" := wordpress_running ]};
                              Units := ∅ |}) ]};
     sequence := 2 |}.

(** A view of a subordinate unit of [logging]. *)
Definition subordinate2 : Unit :=
  {| u_key := "unit-0000000001-0000000002";
     u_serviceName := "logging";
     u_isPrincipal := false |}.


End Sample.

(** ** Vocabulary of the further statements *)

(** The path of the node [addUnit] creates when the sequence counter of the
    store stands at [n]. *)
Definition unit_node_path (s : Service) (n : nat) : string :=
  (Service_zkPath s ++ "/units/unit-"
   ++ drop_prefix (String.length "service-") (s_key s) ++ "-") ++ pad10 n.

(** The store once [addUnit] has created the node of the unit. *)
Definition with_unit_node `{Collaborators} (s : Service) (url : URL) (z : ZK) : ZK :=
  {| nodes := <[unit_node_path s (sequence z) :=
                  {| data := Settings {[ "charm" := VStr (URL_String url) ]};
                     version := 0 |}]> (nodes z);
     sequence := S (sequence z) |}.

(** The annotation [addUnit] defers. *)
Definition addUnit_context (s : Service) : string :=
  "can't add unit to service " ++ quote (Service_String s).

(** No character of [s] is [c]. *)
Fixpoint free_of (c : ascii) (s : string) : bool :=
  match s with
  | EmptyString => true
  | String a rest => negb (Ascii.eqb a c) && free_of c rest
  end.

(** * cmd/juju/model: the grant and revoke commands *)

(** [accessCommand]; the embedded [ControllerCommandBase] is the environment
    of [AccessEnvironment] below. *)
Record accessCommand : Type := {
  User : string;
  ModelNames : list string;
  ModelAccess : string;
}.

(** [c.Init(args)]: the command after the call and the error returned. *)
Definition accessCommand_Init (c : accessCommand) (args : list string)
  : accessCommand * result unit :=
  if bool_decide (length args < 1) then (c, Err (Errorf "no user specified"))
  else if bool_decide (length args < 2) then (c, Err (Errorf "no model specified"))
  else
    ({| User := default "" (head args);
        ModelNames := drop 1 args;
        ModelAccess := ModelAccess c |}, Ok tt).

(** What the commands read of a model: [model.ModelUUID]. *)
Record ModelDetails : Type := {
  ModelUUID : string;
}.

(** [GrantModelAPI] and [RevokeModelAPI]: what the method of the client
    answers. *)
Record GrantModelAPI : Type := {
  GrantModel : string -> string -> list string -> result unit;
}.

Record RevokeModelAPI : Type := {
  RevokeModel : string -> string -> list string -> result unit;
}.

(** The calls made on an API client, in the order they are made. *)
Inductive api_call : Type :=
| CallClose
| CallGrantModel (user access : string) (modelUUIDs : list string)
| CallRevokeModel (user access : string) (modelUUIDs : list string).

(** What the commands are given by the packages around them: the client
    store with its lookup and refresh (controller and account fixed),
    [errors.IsNotFound], the constructors of the API clients, and
    [block.ProcessBlockedError] at [block.BlockChange]. *)
Class AccessEnvironment : Type := {
  ClientStore : Type;
  ModelByName : ClientStore -> string -> result ModelDetails;
  IsNotFound : error -> bool;
  RefreshModels : ClientStore -> result unit * ClientStore;
  NewGrantClient : result GrantModelAPI;
  NewRevokeClient : result RevokeModelAPI;
  ProcessBlockedError : result unit -> result unit;
}.

(** [errors.Annotatef(err, format, args...)]: the cause is kept under the
    annotation. *)
Definition Annotatef (err : error) (text : string) : error := Context text err.

(** [errors.IsNotFound(err)] on the error of a lookup, nil included. *)
Definition lookup_not_found `{AccessEnvironment} {A} (r : result A) : bool :=
  match r with
  | Err e => IsNotFound e
  | _ => false
  end.

(** The loop of [modelUUIDs]: [uuids] is the slice assembled so far. *)
Fixpoint modelUUIDs_loop `{AccessEnvironment} (names : list string)
  (uuids : list string) (store : ClientStore) : result (list string) * ClientStore :=
  match names with
  | [] => (Ok uuids, store)
  | modelName :: rest =>
    let finish (lookup : result ModelDetails) (store' : ClientStore) :=
      match lookup with
      | Ok model => modelUUIDs_loop rest (uuids ++ [ModelUUID model])%list store'
      | Err err =>
        (Err (Annotatef err ("model " ++ quote modelName ++ " not found")), store')
      | Panic => (Panic, store')
      | OutOfFuel => (OutOfFuel, store')
      end in
    let lookup := ModelByName store modelName in
    if lookup_not_found lookup then
      match RefreshModels store with
      | (Ok _, store') => finish (ModelByName store' modelName) store'
      | (Err err, store') =>
        (Err (Annotatef err ("refreshing model " ++ quote modelName)), store')
      | (Panic, store') => (Panic, store')
      | (OutOfFuel, store') => (OutOfFuel, store')
      end
    else finish lookup store
  end.

(** [c.modelUUIDs(ctx)]; the verbose log of [ctx] is left out. *)
Definition accessCommand_modelUUIDs `{AccessEnvironment} (c : accessCommand)
  (store : ClientStore) : result (list string) * ClientStore :=
  modelUUIDs_loop (ModelNames c) [] store.

(** [grantCommand]: [api] is [None] for Go's nil. *)
Record grantCommand : Type := {
  grant_accessCommand : accessCommand;
  grant_api : option GrantModelAPI;
}.

Record revokeCommand : Type := {
  revoke_accessCommand : accessCommand;
  revoke_api : option RevokeModelAPI;
}.

(** [c.getAPI()] of [grantCommand]. *)
Definition grantCommand_getAPI `{AccessEnvironment} (c : grantCommand)
  : result GrantModelAPI :=
  match grant_api c with
  | Some api => Ok api
  | None => NewGrantClient
  end.

(** [c.getAPI()] of [revokeCommand]. *)
Definition revokeCommand_getAPI `{AccessEnvironment} (c : revokeCommand)
  : result RevokeModelAPI :=
  match revoke_api c with
  | Some api => Ok api
  | None => NewRevokeClient
  end.

(** What a run of a command comes to: the error returned and the calls made
    on the API client. *)
Record run : Type := {
  run_result : result unit;
  run_calls : list api_call;
}.

(** [c.Run(ctx)] of [grantCommand]. The deferred [client.Close()] is the
    last call, whatever the path taken once the client is there. *)
Definition grantCommand_Run `{AccessEnvironment} (c : grantCommand)
  (store : ClientStore) : run * ClientStore :=
  match grantCommand_getAPI c with
  | Ok client =>
    match accessCommand_modelUUIDs (grant_accessCommand c) store with
    | (Ok models, store') =>
      let user := User (grant_accessCommand c) in
      let access := ModelAccess (grant_accessCommand c) in
      ({| run_result := ProcessBlockedError (GrantModel client user access models);
          run_calls := [CallGrantModel user access models; CallClose] |}, store')
    | (Err err, store') =>
      ({| run_result := Err err; run_calls := [CallClose] |}, store')
    | (Panic, store') =>
      ({| run_result := Panic; run_calls := [CallClose] |}, store')
    | (OutOfFuel, store') =>
      ({| run_result := OutOfFuel; run_calls := [CallClose] |}, store')
    end
  | Err err => ({| run_result := Err err; run_calls := [] |}, store)
  | Panic => ({| run_result := Panic; run_calls := [] |}, store)
  | OutOfFuel => ({| run_result := OutOfFuel; run_calls := [] |}, store)
  end.

(** [c.Run(ctx)] of [revokeCommand]. *)
Definition revokeCommand_Run `{AccessEnvironment} (c : revokeCommand)
  (store : ClientStore) : run * ClientStore :=
  match revokeCommand_getAPI c with
  | Ok client =>
    match accessCommand_modelUUIDs (revoke_accessCommand c) store with
    | (Ok modelUUIDs, store') =>
      let user := User (revoke_accessCommand c) in
      let access := ModelAccess (revoke_accessCommand c) in
      ({| run_result := ProcessBlockedError (RevokeModel client user access modelUUIDs);
          run_calls := [CallRevokeModel user access modelUUIDs; CallClose] |}, store')
    | (Err err, store') =>
      ({| run_result := Err err; run_calls := [CallClose] |}, store')
    | (Panic, store') =>
      ({| run_result := Panic; run_calls := [CallClose] |}, store')
    | (OutOfFuel, store') =>
      ({| run_result := OutOfFuel; run_calls := [CallClose] |}, store')
    end
  | Err err => ({| run_result := Err err; run_calls := [] |}, store)
  | Panic => ({| run_result := Panic; run_calls := [] |}, store)
  | OutOfFuel => ({| run_result := OutOfFuel; run_calls := [] |}, store)
  end.

(** The UUID the client store gives for a model name it knows. *)
Definition known_uuid `{AccessEnvironment} (store : ClientStore) (modelName : string)
  : string :=
  match ModelByName store modelName with
  | Ok model => ModelUUID model
  | _ => ""
  end.

(** The call is [client.Close()]. *)
Definition is_Close (call : api_call) : bool :=
  match call with
  | CallClose => true
  | _ => false
  end.

(** ** A client store to run the commands on *)

(** One choice of environment: the client store caches model names with
    their UUIDs and a refresh brings in the models of the controller; the
    lookup of a name that is not cached is a not-found error; the API
    clients grant and revoke without error. *)
Module SampleAccess.

Record store : Type := {
  cached : gmap string string;
  controller : gmap string string;
}.

Definition not_found : error := Errorf "not found".

Definition ModelByName (st : store) (name : string) : result ModelDetails :=
  match cached st !! name with
  | Some uuid => Ok {| ModelUUID := uuid |}
  | None => Err (Context ("model " ++ name) not_found)
  end.

Definition RefreshModels (st : store) : result unit * store :=
  (Ok tt, {| cached := controller st ∪ cached st; controller := controller st |}).

Definition environment : AccessEnvironment :=
  Build_AccessEnvironment
    store
    ModelByName
    (fun e => bool_decide (kind e = not_found))          (* IsNotFound *)
    RefreshModels
    (Ok {| GrantModel := fun _ _ _ => Ok tt |})           (* NewGrantClient *)
    (Ok {| RevokeModel := fun _ _ _ => Ok tt |})          (* NewRevokeClient *)
    (fun r => r).                                         (* ProcessBlockedError *)

(** [model1] is cached, [model2] is known to the controller only. *)
Definition partly_cached : store :=
  {| cached := {[ "model1" := "uuid-1" ]};
     controller := {[ "model1" := "uuid-1"; "model2" := "uuid-2" ]} |}.

Definition joe : accessCommand :=
  {| User := "joe"; ModelNames := ["model1"; "model2"]; ModelAccess := "read" |}.

Definition joe_unknown : accessCommand :=
  {| User := "joe"; ModelNames := ["model1"; "model9"]; ModelAccess := "read" |}.

(** Both models are cached. *)
Definition fully_cached : store :=
  {| cached := {[ "model1" := "uuid-1"; "model2" := "uuid-2" ]};
     controller := {[ "model1" := "uuid-1"; "model2" := "uuid-2" ]} |}.

(** An environment whose lookup errors are never not-found errors. *)
Definition strict_environment : AccessEnvironment :=
  Build_AccessEnvironment
    store
    ModelByName
    (fun _ => false)                                      (* IsNotFound *)
    RefreshModels
    (Ok {| GrantModel := fun _ _ _ => Ok tt |})           (* NewGrantClient *)
    (Ok {| RevokeModel := fun _ _ _ => Ok tt |})          (* NewRevokeClient *)
    (fun r => r).                                         (* ProcessBlockedError *)

End SampleAccess.

(** ** Stores at the edges *)

Module Edge.

(** A service whose key is shorter than "service-". *)
Definition short : Service := {| s_key := "svc"; s_name := "short" |}.

Definition short_deployed : ZK :=
  {| nodes :=
       {[ "/services/svc" :=
            Sample.node (Settings {[ "charm" := VStr "local:series/short-1" ]}) ]};
     sequence := 0 |}.

(** The deployment of [Sample] without its topology document. *)
Definition no_topology : ZK :=
  {| nodes := delete zkTopologyPath (nodes Sample.deployed); sequence := 0 |}.

(** The collaborators of [Sample] with another writer at work: during the
    first attempt of an engine with a budget of three, it puts the deployment
    of [Sample] in the place of the store. *)
Definition healing : Collaborators :=
  Build_Collaborators
    string
    Sample.ParseURL
    (fun url => url)
    Sample.State_Charm
    Sample.parseUnitName
    (fun _ => ret tt)
    (fun u => ret (u_isPrincipal u))
    Sample.Unit_zkPath
    Sample.Unit_String
    (fun n z => if bool_decide (n = 2) then Sample.deployed else z)
    3.

(** The deployment of [Sample] with a number under "charm" for [wordpress]. *)
Definition numeric_charm : ZK :=
  {| nodes := <["/services/service-0000000000" :=
                  Sample.node (Settings {[ "charm" := VNum 42 ]})]>
                (nodes Sample.deployed);
     sequence := 0 |}.

(** The deployment of [Sample] without the charm of [wordpress] in the charm
    collection. *)
Definition charm_missing : ZK :=
  {| nodes := delete "/charms/local:series/wordpress-1" (nodes Sample.deployed);
     sequence := 0 |}.

(** The store after [wordpress.addUnit] with no principal, on [Sample.deployed]. *)
Definition one_unit : ZK :=
  (Service_addUnit (H := Sample.collaborators) Sample.wordpress "" Sample.deployed).2.

End Edge.


(** * Properties *)

(** ** The plumbing *)

Lemma deferred_eq {A} (ctx : string) (m : M A) (z : ZK) :
  deferred ctx m z = (errorContextf ctx (m z).1, (m z).2).
Proof. unfold deferred. destruct (m z); reflexivity. Qed.

Lemma bind_Ok {A B} (m : M A) (k : A -> M B) (z z' : ZK) (a : A) :
  m z = (Ok a, z') -> bind m k z = k a z'.
Proof. unfold bind. intros ->. reflexivity. Qed.

Lemma bind_Err {A B} (m : M A) (k : A -> M B) (z z' : ZK) (e : error) :
  m z = (Err e, z') -> bind m k z = (Err e, z').
Proof. unfold bind. intros ->. reflexivity. Qed.

Lemma deferred_of {A} (ctx : string) (m : M A) (z z' : ZK) (r : result A) :
  m z = (r, z') -> deferred ctx m z = (errorContextf ctx r, z').
Proof. unfold deferred. intros ->. reflexivity. Qed.

Lemma kind_Context (ctx : string) (e : error) : kind (Context ctx e) = kind e.
Proof. reflexivity. Qed.

Lemma zk_Get_store (path : string) (z : ZK) : (zk_Get path z).2 = z.
Proof. unfold zk_Get. destruct (nodes z !! path); reflexivity. Qed.

Lemma readTopologyVersion_store (z : ZK) : (readTopologyVersion z).2 = z.
Proof.
  unfold readTopologyVersion, bind, zk_Get.
  destruct (nodes z !! zkTopologyPath) as [[d v]|]; [|reflexivity].
  destruct d; reflexivity.
Qed.

Lemma readTopology_store (z : ZK) : (readTopology z).2 = z.
Proof.
  unfold readTopology, bind.
  pose proof (readTopologyVersion_store z) as Hs.
  destruct (readTopologyVersion z) as [[tv| | |] z']; simpl in *; congruence.
Qed.

Lemma readTopology_pair (z : ZK) : readTopology z = ((readTopology z).1, z).
Proof.
  rewrite <- (readTopology_store z) at 3. destruct (readTopology z); reflexivity.
Qed.

Lemma readTopology_Ok (z : ZK) (t : topology) :
  (readTopology z).1 = Ok t -> readTopology z = (Ok t, z).
Proof. intros Ht. rewrite readTopology_pair, Ht. reflexivity. Qed.

(** ** The exposure flag *)

(** C8. [SetExposed] and [ClearExposed] are idempotent: from every store,
    [SetExposed] succeeds, a second [SetExposed] succeeds too and leaves the
    store as the first left it, and [IsExposed] then answers true; the
    second call meets "node exists" from the store and reports success.
    Likewise [ClearExposed] twice succeeds twice, the second call meeting
    "no node", and [IsExposed] then answers false. *)
Theorem exposed_flag_idempotent (s : Service) (z : ZK) :
  let path := Service_zkExposedPath s in
  let z1 := (Service_SetExposed s z).2 in
  let z2 := (Service_SetExposed s z1).2 in
  let c1 := (Service_ClearExposed s z).2 in
  let c2 := (Service_ClearExposed s c1).2 in
  ((Service_SetExposed s z).1 = Ok tt
   /\ (zk_Create path (Raw "") NONE z1).1 = Err (ZkError ZNODEEXISTS)
   /\ Service_SetExposed s z1 = (Ok tt, z1)
   /\ (Service_IsExposed s z1).1 = Ok true
   /\ (Service_IsExposed s z2).1 = Ok true)
  /\ ((Service_ClearExposed s z).1 = Ok tt
      /\ (zk_Delete path None c1).1 = Err (ZkError ZNONODE)
      /\ Service_ClearExposed s c1 = (Ok tt, c1)
      /\ (Service_IsExposed s c1).1 = Ok false
      /\ (Service_IsExposed s c2).1 = Ok false).
Proof.
  cbv zeta. split.
  - assert (Hz1 : is_Some (nodes (Service_SetExposed s z).2 !! Service_zkExposedPath s)).
    { unfold Service_SetExposed, zk_Create.
      destruct (nodes z !! Service_zkExposedPath s) eqn:E; simpl.
      - rewrite E. eauto.
      - rewrite lookup_insert_eq. eauto. }
    assert (H1 : (Service_SetExposed s z).1 = Ok tt).
    { unfold Service_SetExposed, zk_Create.
      destruct (nodes z !! Service_zkExposedPath s); reflexivity. }
    set (z1 := (Service_SetExposed s z).2) in *. clearbody z1.
    destruct Hz1 as [n Hn].
    assert (H2 : Service_SetExposed s z1 = (Ok tt, z1)).
    { unfold Service_SetExposed, zk_Create. rewrite Hn. reflexivity. }
    repeat split.
    + exact H1.
    + unfold zk_Create. rewrite Hn. reflexivity.
    + exact H2.
    + unfold Service_IsExposed, zk_Exists. rewrite Hn. reflexivity.
    + rewrite H2. unfold Service_IsExposed, zk_Exists. simpl. rewrite Hn. reflexivity.
  - assert (Hc1 : nodes (Service_ClearExposed s z).2 !! Service_zkExposedPath s = None).
    { unfold Service_ClearExposed, zk_Delete.
      destruct (nodes z !! Service_zkExposedPath s) eqn:E; simpl.
      - apply lookup_delete_eq.
      - exact E. }
    assert (H1 : (Service_ClearExposed s z).1 = Ok tt).
    { unfold Service_ClearExposed, zk_Delete.
      destruct (nodes z !! Service_zkExposedPath s); reflexivity. }
    set (c1 := (Service_ClearExposed s z).2) in *. clearbody c1.
    assert (H2 : Service_ClearExposed s c1 = (Ok tt, c1)).
    { unfold Service_ClearExposed, zk_Delete. rewrite Hc1. reflexivity. }
    repeat split.
    + exact H1.
    + unfold zk_Delete. rewrite Hc1. reflexivity.
    + exact H2.
    + unfold Service_IsExposed, zk_Exists. rewrite Hc1. reflexivity.
    + rewrite H2. unfold Service_IsExposed, zk_Exists. simpl. rewrite Hc1. reflexivity.
Qed.

(** ** The topology document: lookups *)

Lemma serviceAndUnit_Ok_record (t : topology) (key : string) su :
  topology_serviceAndUnit t key = Ok su -> Units t !! key = Some su.2.
Proof.
  unfold topology_serviceAndUnit.
  destruct (Units t !! key) as [u|]; [|discriminate].
  destruct (Services t !! unitService u) as [svc|]; [|discriminate].
  case_bool_decide; [|discriminate].
  intros [= <-]. reflexivity.
Qed.

Lemma serviceAndUnit_no_record (t : topology) (key : string) :
  Units t !! key = None ->
  topology_serviceAndUnit t key
  = Err (Errorf ("unit with key " ++ quote key ++ " not found")).
Proof. unfold topology_serviceAndUnit. intros ->. reflexivity. Qed.

Lemma serviceAndUnit_cases (t : topology) (key : string) :
  (exists su, topology_serviceAndUnit t key = Ok su)
  \/ (exists msg, topology_serviceAndUnit t key = Err (Errorf msg)).
Proof.
  unfold topology_serviceAndUnit.
  destruct (Units t !! key) as [u|]; [|right; eauto].
  destruct (Services t !! unitService u) as [svc|]; [|right; eauto].
  case_bool_decide; [left|right]; eauto.
Qed.

Lemma HasUnit_serviceAndUnit (t : topology) (key : string) :
  topology_HasUnit t key = true <-> exists su, topology_serviceAndUnit t key = Ok su.
Proof.
  unfold topology_HasUnit. split.
  - destruct (topology_serviceAndUnit t key); try discriminate. eauto.
  - intros [su ->]. reflexivity.
Qed.

Lemma assemble_units_all (s : Service) (t : topology) (keys : list string) :
  forall units,
    (forall key, key ∈ keys -> topology_HasUnit t key = true) ->
    assemble_units s t keys units = Ok (units ++ (unit_view s t <$> keys))%list.
Proof.
  induction keys as [|key rest IH]; intros units Hall; simpl.
  - rewrite app_nil_r. reflexivity.
  - destruct (proj1 (HasUnit_serviceAndUnit t key)) as [su Hsu].
    { apply Hall. left. }
    rewrite Hsu. rewrite IH.
    + rewrite <- app_assoc. simpl. unfold unit_view at 2.
      rewrite (serviceAndUnit_Ok_record _ _ _ Hsu). reflexivity.
    + intros k Hk. apply Hall. right. exact Hk.
Qed.

Lemma assemble_units_some_missing (s : Service) (t : topology) (keys : list string) :
  forall units,
    (exists key, key ∈ keys /\ topology_HasUnit t key = false) ->
    exists msg,
      assemble_units s t keys units = Err (Errorf ("inconsistent topology: " ++ msg)).
Proof.
  induction keys as [|key rest IH]; intros units (k & Hk & Hmiss).
  - inversion Hk.
  - simpl. destruct (serviceAndUnit_cases t key) as [[su Hsu]|[msg Hmsg]].
    + rewrite Hsu. apply IH. exists k. split; [|exact Hmiss].
      apply elem_of_cons in Hk as [->|Hk]; [|exact Hk].
      unfold topology_HasUnit in Hmiss. rewrite Hsu in Hmiss. discriminate.
    + rewrite Hmsg. eexists. reflexivity.
Qed.

(** ** Reading units *)

(** C9. [AllUnits] reads the topology document once: it leaves the store
    as it is and its result is fixed by the one document read. With the
    service present, it returns one view per unit key registered under the
    service when every key has its per-unit record; when some registered
    key has no per-unit record it returns an "inconsistent topology" error,
    hence no unit list at all. *)
Theorem AllUnits_all_or_inconsistent (s : Service) (z : ZK) (t : topology)
  (svc : topoService) :
  (readTopology z).1 = Ok t ->
  Services t !! s_key s = Some svc ->
  let ctx := "can't get all units from service " ++ quote (Service_String s) in
  ((Service_AllUnits s z).2 = z
   /\ forall z', (readTopology z').1 = Ok t ->
                 (Service_AllUnits s z').1 = (Service_AllUnits s z).1)
  /\ ((forall key, key ∈ svcUnits svc -> topology_HasUnit t key = true) ->
      Service_AllUnits s z = (Ok (unit_view s t <$> elements (svcUnits svc)), z)
      /\ u_key <$> (unit_view s t <$> elements (svcUnits svc))
         = elements (svcUnits svc))
  /\ ((exists key, key ∈ svcUnits svc /\ Units t !! key = None) ->
      exists msg,
        Service_AllUnits s z
        = (Err (Context ctx (Errorf ("inconsistent topology: " ++ msg))), z)).
Proof.
  intros Hread Hsvc ctx.
  assert (Hshape : forall z', (readTopology z').1 = Ok t ->
            Service_AllUnits s z'
            = (errorContextf ctx (assemble_units s t (elements (svcUnits svc)) []), z')).
  { intros z' Hz'. unfold Service_AllUnits. rewrite deferred_eq.
    rewrite (bind_Ok _ _ _ _ _ (readTopology_Ok _ _ Hz')).
    unfold topology_HasService. rewrite bool_decide_eq_true_2 by (rewrite Hsvc; eauto).
    simpl. unfold bind, lift, topology_UnitKeys. rewrite Hsvc. simpl.
    reflexivity. }
  split; [split|split].
  - rewrite (Hshape z Hread). reflexivity.
  - intros z' Hz'. rewrite (Hshape z Hread), (Hshape z' Hz'). reflexivity.
  - intros Hall. split.
    + rewrite (Hshape z Hread), assemble_units_all.
      * reflexivity.
      * intros key Hkey. apply Hall. apply elem_of_elements. exact Hkey.
    + rewrite <- list_fmap_compose. apply list_fmap_id.
  - intros (key & Hkey & Hnone).
    destruct (assemble_units_some_missing s t (elements (svcUnits svc)) []) as [msg Hmsg].
    { exists key. split; [apply elem_of_elements; exact Hkey|].
      unfold topology_HasUnit. rewrite serviceAndUnit_no_record by exact Hnone.
      reflexivity. }
    exists msg. rewrite (Hshape z Hread), Hmsg. reflexivity.
Qed.

(** [AllUnits] on the deployment with two units of [wordpress]. *)
Lemma AllUnits_all_or_inconsistent_witness :
  Service_AllUnits Sample.wordpress Sample.running
  = (Ok [Sample.unit1; Sample.unit0], Sample.running).
Proof.
  destruct (AllUnits_all_or_inconsistent Sample.wordpress Sample.running
              Sample.two_units Sample.wordpress_running)
    as (_ & Hall & _).
  - vm_compute. reflexivity.
  - vm_compute. reflexivity.
  - destruct Hall as [Heq _].
    + intros key Hkey. apply elem_of_elements in Hkey.
      assert (Hk : key ∈ [u_key Sample.unit1; u_key Sample.unit0]).
      { revert Hkey. vm_compute (elements _). intros Hkey. exact Hkey. }
      apply elem_of_cons in Hk as [->|Hk]; [vm_compute; reflexivity|].
      apply elem_of_cons in Hk as [->|Hk]; [vm_compute; reflexivity|].
      inversion Hk.
    + rewrite Heq. vm_compute. reflexivity.
Defined.

Section UnitLookup.

Context `{Collaborators}.

Lemma Unit_parse_error (s : Service) (name : string) (e : error) (z : ZK) :
  parseUnitName name = Err e ->
  Service_Unit s name z = (Err (Context (Unit_context s name) e), z).
Proof.
  intros Hp. unfold Service_Unit. apply (deferred_of _ _ _ _ (Err e)).
  unfold bind at 1. unfold lift at 1. rewrite Hp. reflexivity.
Qed.

Lemma Unit_other_service (s : Service) (name serviceName : string) (id : nat)
  (z : ZK) :
  parseUnitName name = Ok (serviceName, id) ->
  serviceName <> s_name s ->
  Service_Unit s name z
  = (Err (Context (Unit_context s name) (Errorf "unit not found")), z).
Proof.
  intros Hp Hne. unfold Service_Unit.
  apply (deferred_of _ _ _ _ (Err (Errorf "unit not found"))).
  unfold bind at 1. unfold lift at 1. rewrite Hp. cbn [fst snd].
  apply String.eqb_neq in Hne. rewrite Hne. reflexivity.
Qed.

Lemma Unit_reads_topology (s : Service) (name : string) (id : nat) (z : ZK) :
  parseUnitName name = Ok (s_name s, id) ->
  Service_Unit s name z
  = (errorContextf (Unit_context s name)
       match (readTopology z).1 with
       | Ok t =>
         if negb (topology_HasService t (s_key s)) then Err stateChanged
         else
           match topology_serviceAndUnit t (makeUnitKey (s_key s) id) with
           | Ok su => Ok {| u_key := makeUnitKey (s_key s) id;
                            u_serviceName := s_name s;
                            u_isPrincipal := topoUnit_isPrincipal su.2 |}
           | Err e => Err e
           | Panic => Panic
           | OutOfFuel => OutOfFuel
           end
       | Err e => Err e
       | Panic => Panic
       | OutOfFuel => OutOfFuel
       end, z).
Proof.
  intros Hp. unfold Service_Unit. apply (deferred_of (A := Unit)).
  unfold bind at 1. unfold lift at 1. rewrite Hp. cbn [fst snd].
  rewrite String.eqb_refl. cbn [negb].
  unfold bind at 1. pose proof (readTopology_store z) as Hs.
  destruct (readTopology z) as [r z0]. cbn [fst snd] in *. subst z0.
  destruct r as [t| | |]; try reflexivity.
  destruct (topology_HasService t (s_key s)); cbn [negb]; [|reflexivity].
  unfold bind, lift.
  destruct (topology_serviceAndUnit t (makeUnitKey (s_key s) id)); reflexivity.
Qed.

(** C10. A malformed unit name, and a unit name of another service, are
    turned down by [Unit] before it reads anything: one and the same
    error comes back from every store, also from a store without a
    topology document, and the store is left as it is. For a name of
    another service the error is "unit not found". *)
Theorem Unit_rejects_before_reading (s : Service) (name : string) :
  (is_Err (parseUnitName name)
   \/ exists serviceName id,
        parseUnitName name = Ok (serviceName, id) /\ serviceName <> s_name s) ->
  exists e,
    (forall z, Service_Unit s name z = (Err e, z))
    /\ (forall serviceName id,
          parseUnitName name = Ok (serviceName, id) ->
          e = Context (Unit_context s name) (Errorf "unit not found")).
Proof.
  intros [Hbad|(serviceName & id & Hp & Hne)].
  - destruct (parseUnitName name) as [|e| |] eqn:Hp; try contradiction.
    exists (Context (Unit_context s name) e). split.
    + intros z. apply Unit_parse_error. exact Hp.
    + intros sn id' [=].
  - exists (Context (Unit_context s name) (Errorf "unit not found")). split.
    + intros z. eapply Unit_other_service; eassumption.
    + reflexivity.
Qed.

Lemma retryTopologyChange_absorbs (n : nat) (f : topology -> result topology) :
  forall z, (retryTopologyChange others n f z).1 <> Err stateChanged.
Proof.
  induction n as [|n IH]; intros z; simpl; [discriminate|].
  unfold readTopologyVersion, bind, zk_Get.
  destruct (nodes z !! zkTopologyPath) as [[d v]|]; simpl; [|discriminate].
  destruct d as [raw|m|t]; simpl; try discriminate.
  destruct (f t) as [t'|e| |]; simpl; try discriminate.
  - unfold zk_Set.
    destruct (nodes (others n z) !! zkTopologyPath) as [node|]; simpl;
      [|discriminate].
    case_bool_decide; simpl; [discriminate|]. apply IH.
  - case_bool_decide; simpl; [apply IH|]. congruence.
Qed.

Lemma retryTopologyChange_restarts (n : nat) (f : topology -> result topology)
  (z : ZK) (t : topology) (stamp : nat) :
  nodes z !! zkTopologyPath = Some {| data := Topology t; version := stamp |} ->
  f t = Err stateChanged ->
  retryTopologyChange others (S n) f z = retryTopologyChange others n f (others n z).
Proof.
  intros Hnode Hf. cbn [retryTopologyChange].
  unfold readTopologyVersion, bind, zk_Get. rewrite Hnode.
  cbn [fst snd data version ret]. rewrite Hf.
  rewrite bool_decide_eq_true_2 by reflexivity. reflexivity.
Qed.

Lemma retryTopologyChange_attempt (n : nat) (f : topology -> result topology)
  (z : ZK) (t t' : topology) (stamp : nat) :
  nodes z !! zkTopologyPath = Some {| data := Topology t; version := stamp |} ->
  f t = Ok t' ->
  retryTopologyChange others (S n) f z
  = match nodes (others n z) !! zkTopologyPath with
    | Some node =>
      if bool_decide (version node = stamp)
      then (Ok tt, committed t' stamp (others n z))
      else retryTopologyChange others n f (others n z)
    | None => (Err (ZkError ZNONODE), others n z)
    end.
Proof.
  intros Hnode Hf. cbn [retryTopologyChange].
  unfold readTopologyVersion, bind, zk_Get. rewrite Hnode.
  cbn [fst snd data version ret]. rewrite Hf. unfold zk_Set.
  destruct (nodes (others n z) !! zkTopologyPath) as [node|]; [|reflexivity].
  case_bool_decide; reflexivity.
Qed.

(** C1, as the code has it. Only the transaction engine absorbs the
    state-changed condition. When the mutator reports [stateChanged] on the
    document read, the engine starts again from the read, on the store the
    other writers have left; it does the same when another writer committed
    between its read and its write; it commits when the mutator succeeds
    and the stamp still matches, so that a mutator that reports
    [stateChanged] and succeeds on the next document read is committed on
    that document; an error of the mutator other than [stateChanged] is
    returned at once; and whatever the mutator and the store, the engine
    never returns [stateChanged]. [Unit] and [AllUnits] read the topology
    without the engine, and when the document they read does not hold the
    service they return [stateChanged], annotated with the operation and
    the service, and leave the store as it is. *)
Theorem stateChanged_absorbed_by_engine_only (s : Service) (name : string)
  (id : nat) (z : ZK) (t : topology) :
  parseUnitName name = Ok (s_name s, id) ->
  (readTopology z).1 = Ok t ->
  topology_HasService t (s_key s) = false ->
  Service_Unit s name z = (Err (Context (Unit_context s name) stateChanged), z)
  /\ Service_AllUnits s z
     = (Err (Context ("can't get all units from service "
                      ++ quote (Service_String s)) stateChanged), z)
  /\ (forall n f z', (retryTopologyChange others n f z').1 <> Err stateChanged)
  /\ (forall n f z' t' stamp,
        nodes z' !! zkTopologyPath
        = Some {| data := Topology t'; version := stamp |} ->
        f t' = Err stateChanged ->
        retryTopologyChange others (S n) f z'
        = retryTopologyChange others n f (others n z'))
  /\ (forall n f z' t1 t1' stamp node,
        nodes z' !! zkTopologyPath
        = Some {| data := Topology t1; version := stamp |} ->
        f t1 = Ok t1' ->
        nodes (others n z') !! zkTopologyPath = Some node ->
        version node <> stamp ->
        retryTopologyChange others (S n) f z'
        = retryTopologyChange others n f (others n z'))
  /\ (forall n f z' t1 t1' stamp node,
        nodes z' !! zkTopologyPath
        = Some {| data := Topology t1; version := stamp |} ->
        f t1 = Ok t1' ->
        nodes (others n z') !! zkTopologyPath = Some node ->
        version node = stamp ->
        retryTopologyChange others (S n) f z'
        = (Ok tt, committed t1' stamp (others n z')))
  /\ (forall n f z' t1 stamp1 t2 stamp2 t2',
        nodes z' !! zkTopologyPath
        = Some {| data := Topology t1; version := stamp1 |} ->
        f t1 = Err stateChanged ->
        nodes (others (S n) z') !! zkTopologyPath
        = Some {| data := Topology t2; version := stamp2 |} ->
        f t2 = Ok t2' ->
        others n (others (S n) z') = others (S n) z' ->
        retryTopologyChange others (S (S n)) f z'
        = (Ok tt, committed t2' stamp2 (others (S n) z')))
  /\ (forall n f z' t' stamp e,
        nodes z' !! zkTopologyPath
        = Some {| data := Topology t'; version := stamp |} ->
        f t' = Err e -> e <> stateChanged ->
        retryTopologyChange others (S n) f z' = (Err e, z')).
Proof.
  intros Hp Hread Hno.
  split; [|split; [|split; [|split; [|split; [|split; [|split]]]]]].
  - rewrite (Unit_reads_topology s name id z Hp), Hread, Hno. reflexivity.
  - unfold Service_AllUnits. rewrite deferred_eq.
    rewrite (bind_Ok _ _ _ _ _ (readTopology_Ok _ _ Hread)), Hno. reflexivity.
  - intros n f z'. apply retryTopologyChange_absorbs.
  - intros n f z' t' stamp Hnode Hf.
    apply (retryTopologyChange_restarts n f z' t' stamp Hnode Hf).
  - intros n f z' t1 t1' stamp node Hnode Hf Hnode' Hstamp.
    rewrite (retryTopologyChange_attempt n f z' t1 t1' stamp Hnode Hf), Hnode'.
    rewrite bool_decide_eq_false_2 by exact Hstamp. reflexivity.
  - intros n f z' t1 t1' stamp node Hnode Hf Hnode' Hstamp.
    rewrite (retryTopologyChange_attempt n f z' t1 t1' stamp Hnode Hf), Hnode'.
    rewrite bool_decide_eq_true_2 by exact Hstamp. reflexivity.
  - intros n f z' t1 stamp1 t2 stamp2 t2' Hnode1 Hf1 Hnode2 Hf2 Hquiet.
    rewrite (retryTopologyChange_restarts (S n) f z' t1 stamp1 Hnode1 Hf1).
    rewrite (retryTopologyChange_attempt n f _ t2 t2' stamp2 Hnode2 Hf2).
    rewrite Hquiet, Hnode2. cbn [version].
    rewrite bool_decide_eq_true_2 by reflexivity. reflexivity.
  - intros n f z' t' stamp e Hnode Hf Hne. cbn [retryTopologyChange].
    unfold readTopologyVersion, bind, zk_Get. rewrite Hnode.
    cbn [fst snd data version ret]. rewrite Hf.
    rewrite bool_decide_eq_false_2 by exact Hne. reflexivity.
Qed.

End UnitLookup.

(** [wordpress.Unit] given the name of a unit of [logging]. *)
Lemma Unit_rejects_before_reading_witness :
  exists e,
    (forall z, Service_Unit (H := Sample.collaborators) Sample.wordpress "logging/1" z
               = (Err e, z))
    /\ (forall serviceName id,
          parseUnitName (Collaborators := Sample.collaborators) "logging/1"
          = Ok (serviceName, id) ->
          e = Context (Unit_context Sample.wordpress "logging/1")
                (Errorf "unit not found")).
Proof.
  apply (Unit_rejects_before_reading (H := Sample.collaborators)
           Sample.wordpress "logging/1").
  right. exists "logging", 1. split; [vm_compute; reflexivity|discriminate].
Defined.

(** C1 as stated fails: with the service gone from the topology document,
    [Unit] and [AllUnits] hand the state-changed condition to their
    caller. *)
Lemma stateChanged_reaches_the_caller :
  (Service_Unit (H := Sample.collaborators) Sample.wordpress "wordpress/1"
     Sample.vanished).1
  = Err (Context (Unit_context Sample.wordpress "wordpress/1") stateChanged)
  /\ (Service_AllUnits Sample.wordpress Sample.vanished).1
     = Err (Context ("can't get all units from service " ++ quote "wordpress")
              stateChanged)
  /\ kind (Context (Unit_context Sample.wordpress "wordpress/1") stateChanged)
     = stateChanged.
Proof. vm_compute. repeat split. Qed.

(** [Unit] and [AllUnits] on a document that names no service, and the
    engine on that document while another writer brings the services back:
    the mutator of [addUnit] reports [stateChanged], the engine reads again
    and commits the unit on the document it then finds. *)
Lemma stateChanged_absorbed_by_engine_only_witness :
  Service_Unit (H := Edge.healing) Sample.wordpress "wordpress/1" Sample.vanished
  = (Err (Context (Unit_context Sample.wordpress "wordpress/1") stateChanged),
     Sample.vanished)
  /\ Service_AllUnits Sample.wordpress Sample.vanished
     = (Err (Context ("can't get all units from service "
                      ++ quote (Service_String Sample.wordpress)) stateChanged),
        Sample.vanished)
  /\ addUnit_mutator Sample.wordpress (u_key Sample.unit0) ""
       {| Services := ∅; Units := ∅ |} = Err stateChanged
  /\ (retryTopologyChange (others (Collaborators := Edge.healing)) 3
        (addUnit_mutator Sample.wordpress (u_key Sample.unit0) "")
        Sample.vanished).1 = Ok tt
  /\ (readTopology
        (retryTopologyChange (others (Collaborators := Edge.healing)) 3
           (addUnit_mutator Sample.wordpress (u_key Sample.unit0) "")
           Sample.vanished).2).1
     = Ok {| Services :=
               <["service-0000000000" :=
                   {| svcName := "wordpress";
                      svcUnits := {[ u_key Sample.unit0 ]} |}]> Sample.services;
             Units := {[ u_key Sample.unit0 :=
                           {| unitService := "service-0000000000";
                              unitPrincipal := "";
                              unitSequence := 0 |} ]} |}.
Proof.
  destruct (stateChanged_absorbed_by_engine_only (H := Edge.healing)
              Sample.wordpress "wordpress/1" 1 Sample.vanished
              {| Services := ∅; Units := ∅ |})
    as (Hunit & Hall & _ & _ & _ & _ & Hheals & _).
  - vm_compute. reflexivity.
  - vm_compute. reflexivity.
  - vm_compute. reflexivity.
  - split; [exact Hunit|]. split; [exact Hall|].
    split; [vm_compute; reflexivity|].
    rewrite (Hheals 1 (addUnit_mutator Sample.wordpress (u_key Sample.unit0) "")
               Sample.vanished {| Services := ∅; Units := ∅ |} 0
               {| Services := Sample.services; Units := ∅ |} 0
               {| Services :=
                    <["service-0000000000" :=
                        {| svcName := "wordpress";
                           svcUnits := {[ u_key Sample.unit0 ]} |}]> Sample.services;
                  Units := {[ u_key Sample.unit0 :=
                                {| unitService := "service-0000000000";
                                   unitPrincipal := "";
                                   unitSequence := 0 |} ]} |}).
    + split; [reflexivity|]. vm_compute. reflexivity.
    + vm_compute. reflexivity.
    + vm_compute. reflexivity.
    + vm_compute. reflexivity.
    + vm_compute. reflexivity.
    + vm_compute. reflexivity.
Defined.

(** ** The charm reference *)

Section CharmReference.

Context `{Collaborators}.

Lemma CharmURL_reads (s : Service) (z : ZK) (m : gmap string value) (ver : nat) :
  nodes z !! Service_zkPath s = Some {| data := Settings m; version := ver |} ->
  Service_CharmURL s z
  = (errorContextf (CharmURL_context s) (charm_of_settings m), z).
Proof.
  intros Hnode. unfold Service_CharmURL. apply (deferred_of (A := URL)).
  unfold bind at 1. unfold readConfigNode, bind, zk_Get. rewrite Hnode.
  cbn [fst snd data version ret]. unfold ConfigNode_Get, charm_of_settings.
  cbn [cn_settings].
  destruct (m !! "charm") as [[text|n|b]|]; reflexivity.
Qed.


(** The assertion [id.(string)]: a setting under "charm" that is not text
    makes [CharmURL] panic. *)
Lemma CharmURL_panics (s : Service) (z : ZK) (m : gmap string value) (ver : nat)
  (v : value) :
  nodes z !! Service_zkPath s = Some {| data := Settings m; version := ver |} ->
  m !! "charm" = Some v ->
  (forall text, v <> VStr text) ->
  Service_CharmURL s z = (Panic, z).
Proof.
  intros Hnode Hv Hnot. rewrite (CharmURL_reads s z m ver Hnode).
  unfold charm_of_settings. rewrite Hv.
  destruct v as [text|n|b]; [destruct (Hnot text); reflexivity | | ]; reflexivity.
Qed.



End CharmReference.



(** ** Adding units *)

Lemma bind_Ok_inv {A B} (m : M A) (k : A -> M B) (z z' : ZK) (b : B) :
  bind m k z = (Ok b, z') ->
  exists a z1, m z = (Ok a, z1) /\ k a z1 = (Ok b, z').
Proof.
  unfold bind. destruct (m z) as [[a|e| |] z1]; try discriminate. eauto.
Qed.

Lemma deferred_Ok_inv {A} (ctx : string) (m : M A) (z z' : ZK) (a : A) :
  deferred ctx m z = (Ok a, z') -> m z = (Ok a, z').
Proof.
  unfold deferred. destruct (m z) as [[a'|e| |] z1]; simpl; congruence.
Qed.

Section AddingUnits.

Context `{Collaborators}.

Lemma addUnit_view (s : Service) (principalKey : string) (z z' : ZK) (u : Unit) :
  Service_addUnit s principalKey z = (Ok u, z') ->
  u_isPrincipal u = bool_decide (principalKey = "")
  /\ u_serviceName u = s_name s.
Proof.
  unfold Service_addUnit. intros Hok. apply deferred_Ok_inv in Hok.
  apply bind_Ok_inv in Hok as (url & z1 & _ & Hok).
  apply bind_Ok_inv in Hok as (suffix & z2 & _ & Hok).
  apply bind_Ok_inv in Hok as (path & z3 & _ & Hok).
  apply bind_Ok_inv in Hok as (? & z4 & _ & Hok).
  unfold ret in Hok. injection Hok as <- _. split; reflexivity.
Qed.

(** C6. [AddUnit] returns an error, on the store the charm lookup left,
    when the charm of the service is flagged subordinate; otherwise it is
    [addUnit] with the empty principal key, run on the store the charm
    lookup left. A unit that [AddUnit] returns has [isPrincipal] true. *)
Theorem AddUnit_principal_units_only (s : Service) (z : ZK) :
  (forall ch z1,
      Service_Charm s z = (Ok ch, z1) -> Subordinate ch = true ->
      Service_AddUnit s z
      = (Err (Errorf ("cannot directly add units to subordinate service "
                      ++ quote (Service_String s))), z1))
  /\ (forall ch z1,
        Service_Charm s z = (Ok ch, z1) -> Subordinate ch = false ->
        Service_AddUnit s z = Service_addUnit s "" z1)
  /\ (forall u z', Service_AddUnit s z = (Ok u, z') -> u_isPrincipal u = true).
Proof.
  repeat split.
  - intros ch z1 Hch Hsub. unfold Service_AddUnit.
    rewrite (bind_Ok _ _ _ _ _ Hch), Hsub. reflexivity.
  - intros ch z1 Hch Hsub. unfold Service_AddUnit.
    rewrite (bind_Ok _ _ _ _ _ Hch), Hsub. reflexivity.
  - intros u z' Hok. unfold Service_AddUnit in Hok.
    apply bind_Ok_inv in Hok as (ch & z1 & _ & Hok).
    destruct (Subordinate ch); [discriminate|].
    apply addUnit_view in Hok as [-> _]. reflexivity.
Qed.

(** C5. [AddUnitSubordinateTo] returns a unit only when the charm of the
    service is flagged subordinate and [principal.IsPrincipal()] answers
    true, and then it is [addUnit(principal.key)]. An error of the charm
    lookup or of [IsPrincipal] is returned as it is; with a charm that is
    not subordinate the method returns an error of its own; with a
    subordinate charm and a principal that is itself a subordinate it
    returns the error "a subordinate unit must be added to a principal
    unit". Whenever the charm resolves and the principal is a subordinate,
    the result is an error. *)
Theorem AddUnitSubordinateTo_needs_both (s : Service) (principal : Unit) (z : ZK) :
  (forall u z',
      Service_AddUnitSubordinateTo s principal z = (Ok u, z') ->
      exists ch z1 z2,
        Service_Charm s z = (Ok ch, z1)
        /\ Subordinate ch = true
        /\ Unit_IsPrincipal principal z1 = (Ok true, z2)
        /\ Service_addUnit s (u_key principal) z2 = (Ok u, z'))
  /\ (forall ch z1,
        Service_Charm s z = (Ok ch, z1) -> Subordinate ch = false ->
        Service_AddUnitSubordinateTo s principal z
        = (Err (Errorf ("can't add unit of principal service "
                        ++ quote (Service_String s) ++ " as a subordinate of "
                        ++ quote (Unit_String principal))), z1))
  /\ (forall ch z1 z2,
        Service_Charm s z = (Ok ch, z1) -> Subordinate ch = true ->
        Unit_IsPrincipal principal z1 = (Ok false, z2) ->
        Service_AddUnitSubordinateTo s principal z
        = (Err (Errorf "a subordinate unit must be added to a principal unit"), z2))
  /\ (forall ch z1 z2,
        Service_Charm s z = (Ok ch, z1) -> Subordinate ch = true ->
        Unit_IsPrincipal principal z1 = (Ok true, z2) ->
        Service_AddUnitSubordinateTo s principal z
        = Service_addUnit s (u_key principal) z2)
  /\ (forall ch z1 z2,
        Service_Charm s z = (Ok ch, z1) ->
        Unit_IsPrincipal principal z1 = (Ok false, z2) ->
        is_Err (Service_AddUnitSubordinateTo s principal z).1)
  /\ (forall e z1,
        Service_Charm s z = (Err e, z1) ->
        Service_AddUnitSubordinateTo s principal z = (Err e, z1))
  /\ (forall ch z1 e z2,
        Service_Charm s z = (Ok ch, z1) -> Subordinate ch = true ->
        Unit_IsPrincipal principal z1 = (Err e, z2) ->
        Service_AddUnitSubordinateTo s principal z = (Err e, z2)).
Proof.
  repeat split.
  - intros u z' Hok. unfold Service_AddUnitSubordinateTo in Hok.
    apply bind_Ok_inv in Hok as (ch & z1 & Hch & Hok).
    destruct (Subordinate ch) eqn:Hsub; [|discriminate]. cbn [negb] in Hok.
    apply bind_Ok_inv in Hok as (ok & z2 & Hprin & Hok).
    destruct ok; [|discriminate]. cbn [negb] in Hok.
    exists ch, z1, z2. auto.
  - intros ch z1 Hch Hsub. unfold Service_AddUnitSubordinateTo.
    rewrite (bind_Ok _ _ _ _ _ Hch), Hsub. reflexivity.
  - intros ch z1 z2 Hch Hsub Hprin. unfold Service_AddUnitSubordinateTo.
    rewrite (bind_Ok _ _ _ _ _ Hch), Hsub. cbn [negb].
    rewrite (bind_Ok _ _ _ _ _ Hprin). reflexivity.
  - intros ch z1 z2 Hch Hsub Hprin. unfold Service_AddUnitSubordinateTo.
    rewrite (bind_Ok _ _ _ _ _ Hch), Hsub. cbn [negb].
    rewrite (bind_Ok _ _ _ _ _ Hprin). reflexivity.
  - intros ch z1 z2 Hch Hprin. unfold Service_AddUnitSubordinateTo.
    rewrite (bind_Ok _ _ _ _ _ Hch).
    destruct (Subordinate ch); cbn [negb]; [|exact I].
    rewrite (bind_Ok _ _ _ _ _ Hprin). exact I.
  - intros e z1 Hch. unfold Service_AddUnitSubordinateTo.
    apply bind_Err. exact Hch.
  - intros ch z1 e z2 Hch Hsub Hprin. unfold Service_AddUnitSubordinateTo.
    rewrite (bind_Ok _ _ _ _ _ Hch), Hsub. cbn [negb].
    apply bind_Err. exact Hprin.
Qed.

End AddingUnits.

(** The first unit of [wordpress]. *)
Lemma AddUnit_principal_units_only_witness :
  Service_AddUnit (H := Sample.collaborators) Sample.wordpress Sample.deployed
  = (Ok Sample.unit0,
     (Service_AddUnit (H := Sample.collaborators) Sample.wordpress Sample.deployed).2)
  /\ u_isPrincipal Sample.unit0 = true.
Proof.
  assert (Hrun : Service_AddUnit (H := Sample.collaborators) Sample.wordpress
                   Sample.deployed
                 = (Ok Sample.unit0,
                    (Service_AddUnit (H := Sample.collaborators) Sample.wordpress
                       Sample.deployed).2)).
  { vm_compute. reflexivity. }
  split; [exact Hrun|].
  destruct (AddUnit_principal_units_only (H := Sample.collaborators)
              Sample.wordpress Sample.deployed) as (_ & _ & Hprincipal).
  exact (Hprincipal _ _ Hrun).
Defined.

(** A subordinate of a subordinate is refused. *)
Lemma AddUnitSubordinateTo_needs_both_witness :
  Service_AddUnitSubordinateTo (H := Sample.collaborators) Sample.logging
    Sample.subordinate2 Sample.running
  = (Err (Errorf "a subordinate unit must be added to a principal unit"),
     Sample.running).
Proof.
  destruct (AddUnitSubordinateTo_needs_both (H := Sample.collaborators)
              Sample.logging Sample.subordinate2 Sample.running)
    as (_ & _ & Hsub & _).
  apply (Hsub {| Subordinate := true |} Sample.running Sample.running).
  - vm_compute. reflexivity.
  - reflexivity.
  - reflexivity.
Defined.

(** ** Removing units *)

Lemma readTopologyVersion_node (z : ZK) (t : topology) (stamp : nat) :
  nodes z !! zkTopologyPath = Some {| data := Topology t; version := stamp |} ->
  readTopologyVersion z = (Ok (t, stamp), z).
Proof.
  intros Hnode. unfold readTopologyVersion, bind, zk_Get. rewrite Hnode. reflexivity.
Qed.

Section Engine_facts.

Variable others : nat -> ZK -> ZK.



End Engine_facts.




Section RemovingUnits.

Context `{Collaborators}.



End RemovingUnits.


(** ** Annotated errors *)


Section Annotations.

Context `{Collaborators}.


End Annotations.


(** ** The scenarios of section 8, run *)

Example scenario_first_unit :
  (Service_AddUnit (H := Sample.collaborators) Sample.wordpress Sample.deployed).1
  = Ok Sample.unit0.
Proof. vm_compute. reflexivity. Qed.

Example scenario_second_unit :
  (Service_AddUnit (H := Sample.collaborators) Sample.wordpress
     (Service_AddUnit (H := Sample.collaborators) Sample.wordpress
        Sample.deployed).2).1
  = Ok Sample.unit1.
Proof. vm_compute. reflexivity. Qed.

Example scenario_subordinate_service_refuses_AddUnit :
  (Service_AddUnit (H := Sample.collaborators) Sample.logging Sample.running).1
  = Err (Errorf ("cannot directly add units to subordinate service "
                 ++ quote "logging")).
Proof. vm_compute. reflexivity. Qed.

Example scenario_subordinate_unit :
  (Service_AddUnitSubordinateTo (H := Sample.collaborators) Sample.logging
     Sample.unit1 Sample.running).1
  = Ok Sample.subordinate2.
Proof. vm_compute. reflexivity. Qed.

Example scenario_remove_then_list :
  (Service_AllUnits Sample.wordpress
     (Service_RemoveUnit (H := Sample.collaborators) Sample.wordpress
        Sample.unit0 Sample.running).2).1
  = Ok [Sample.unit1].
Proof. vm_compute. reflexivity. Qed.

Example scenario_remove_then_Unit :
  (Service_Unit (H := Sample.collaborators) Sample.wordpress "wordpress/0"
     (Service_RemoveUnit (H := Sample.collaborators) Sample.wordpress
        Sample.unit0 Sample.running).2).1
  = Err (Context (Unit_context Sample.wordpress "wordpress/0")
           (Errorf ("unit with key " ++ quote "unit-0000000000-0000000000"
                    ++ " not found"))).
Proof. vm_compute. reflexivity. Qed.

Example scenario_orphaned_unit_key :
  (Service_AllUnits Sample.wordpress Sample.orphaned).1
  = Err (Context ("can't get all units from service " ++ quote "wordpress")
           (Errorf ("inconsistent topology: unit with key "
                    ++ quote "unit-0000000000-0000000001" ++ " not found"))).
Proof. vm_compute. reflexivity. Qed.

(** * Further properties of the Service entity *)

(** ** Paths *)

Lemma append_inj_l (p a b : string) : p ++ a = p ++ b -> a = b.
Proof.
  induction p as [|c p IH]; simpl; [auto|]. intros [= Heq]. auto.
Qed.

Lemma append_length (a b : string) :
  String.length (a ++ b) = String.length a + String.length b.
Proof. induction a as [|c a IH]; simpl; [reflexivity|]. rewrite IH. reflexivity. Qed.

Lemma append_inj_r (a b c : string) : a ++ c = b ++ c -> a = b.
Proof.
  revert b. induction a as [|x a IH]; intros [|y b] Heq; simpl in Heq.
  - reflexivity.
  - apply (f_equal String.length) in Heq. rewrite !append_length in Heq.
    cbn [String.length] in Heq. lia.
  - apply (f_equal String.length) in Heq. rewrite !append_length in Heq.
    cbn [String.length] in Heq. lia.
  - injection Heq as -> Heq. f_equal. apply IH. exact Heq.
Qed.

Lemma Service_zkPath_inj (s s' : Service) :
  Service_zkPath s = Service_zkPath s' -> s_key s = s_key s'.
Proof. unfold Service_zkPath. apply append_inj_l. Qed.

Lemma Service_zkExposedPath_inj (s s' : Service) :
  Service_zkExposedPath s = Service_zkExposedPath s' -> s_key s = s_key s'.
Proof.
  unfold Service_zkExposedPath. intros Heq. apply append_inj_r in Heq.
  apply Service_zkPath_inj. exact Heq.
Qed.

Lemma Service_zkPath_not_config (s : Service) :
  Service_zkPath s <> Service_zkConfigPath s.
Proof.
  unfold Service_zkConfigPath. intros Heq.
  apply (f_equal String.length) in Heq. rewrite append_length in Heq.
  simpl in Heq. lia.
Qed.

(** ** Operations that only read *)

Lemma readConfigNode_store (path : string) (z : ZK) : (readConfigNode path z).2 = z.
Proof.
  unfold readConfigNode, bind, zk_Get.
  destruct (nodes z !! path) as [[d v]|]; [|reflexivity].
  destruct d; reflexivity.
Qed.

Lemma CharmURL_store `{Collaborators} (s : Service) (z : ZK) :
  (Service_CharmURL s z).2 = z.
Proof.
  unfold Service_CharmURL. rewrite deferred_eq. cbn [snd].
  unfold bind. pose proof (readConfigNode_store (Service_zkPath s) z) as Hs.
  destruct (readConfigNode (Service_zkPath s) z) as [[cn|e| |] z0];
    cbn [snd] in *; subst z0; try reflexivity.
  destruct (ConfigNode_Get cn "charm") as [[text|n|b]|]; reflexivity.
Qed.

Lemma Unit_store `{Collaborators} (s : Service) (name : string) (z : ZK) :
  (Service_Unit s name z).2 = z.
Proof.
  unfold Service_Unit. rewrite deferred_eq. cbn [snd].
  unfold bind at 1. unfold lift at 1.
  destruct (parseUnitName name) as [[serviceName id]|e| |]; try reflexivity.
  cbn [fst snd]. destruct (negb (serviceName =? s_name s)%string); [reflexivity|].
  unfold bind at 1. pose proof (readTopology_store z) as Hs.
  destruct (readTopology z) as [[t|e| |] z0]; cbn [snd] in *; subst z0;
    try reflexivity.
  destruct (negb (topology_HasService t (s_key s))); [reflexivity|].
  unfold bind, lift.
  destruct (topology_serviceAndUnit t (makeUnitKey (s_key s) id)); reflexivity.
Qed.

Lemma AllUnits_store (s : Service) (z : ZK) : (Service_AllUnits s z).2 = z.
Proof.
  unfold Service_AllUnits. rewrite deferred_eq. cbn [snd].
  unfold bind at 1. pose proof (readTopology_store z) as Hs.
  destruct (readTopology z) as [[t|e| |] z0]; cbn [snd] in *; subst z0;
    try reflexivity.
  destruct (negb (topology_HasService t (s_key s))); [reflexivity|].
  unfold bind, lift.
  destruct (topology_UnitKeys t (s_key s)); reflexivity.
Qed.

Lemma Config_store (s : Service) (z : ZK) : (Service_Config s z).2 = z.
Proof.
  unfold Service_Config.
  pose proof (readConfigNode_store (Service_zkConfigPath s) z) as Hs.
  destruct (readConfigNode (Service_zkConfigPath s) z) as [[cn|e| |] z0];
    cbn [snd] in *; subst z0; reflexivity.
Qed.

(** X1. The operations that look things up, [CharmURL], [Unit], [AllUnits],
    [IsExposed] and [Config], write nothing: whatever they return, the store
    after the call is the store before it. *)
Theorem lookups_leave_the_store `{Collaborators} (s : Service) (name : string)
  (z : ZK) :
  (Service_CharmURL s z).2 = z
  /\ (Service_Unit s name z).2 = z
  /\ (Service_AllUnits s z).2 = z
  /\ (Service_IsExposed s z).2 = z
  /\ (Service_Config s z).2 = z.
Proof.
  split; [apply CharmURL_store|]. split; [apply Unit_store|].
  split; [apply AllUnits_store|]. split; [reflexivity|apply Config_store].
Qed.

(** ** The exposure flag, further *)

Lemma SetExposed_nodes (s : Service) (z : ZK) (p : string) :
  p <> Service_zkExposedPath s ->
  nodes (Service_SetExposed s z).2 !! p = nodes z !! p.
Proof.
  intros Hp. unfold Service_SetExposed, zk_Create.
  destruct (nodes z !! Service_zkExposedPath s); cbn [snd nodes]; [reflexivity|].
  apply lookup_insert_ne. congruence.
Qed.

Lemma ClearExposed_nodes (s : Service) (z : ZK) (p : string) :
  p <> Service_zkExposedPath s ->
  nodes (Service_ClearExposed s z).2 !! p = nodes z !! p.
Proof.
  intros Hp. unfold Service_ClearExposed, zk_Delete.
  destruct (nodes z !! Service_zkExposedPath s); cbn [snd nodes]; [|reflexivity].
  apply lookup_delete_ne. congruence.
Qed.

Lemma IsExposed_node (s : Service) (z : ZK) :
  (Service_IsExposed s z).1
  = Ok (bool_decide (is_Some (nodes z !! Service_zkExposedPath s))).
Proof.
  unfold Service_IsExposed, zk_Exists. cbn [fst].
  destruct (nodes z !! Service_zkExposedPath s); reflexivity.
Qed.

(** X2. [SetExposed] and [ClearExposed] of a service touch the marker node
    of that service and nothing else: every other node and the sequence
    counter of the store stay as they are, and so does the exposure flag of
    every service with another key. *)
Theorem exposure_is_per_service (s s' : Service) (z : ZK) :
  s_key s' <> s_key s ->
  (forall p, p <> Service_zkExposedPath s ->
             nodes (Service_SetExposed s z).2 !! p = nodes z !! p
             /\ nodes (Service_ClearExposed s z).2 !! p = nodes z !! p)
  /\ sequence (Service_SetExposed s z).2 = sequence z
  /\ sequence (Service_ClearExposed s z).2 = sequence z
  /\ (Service_IsExposed s' (Service_SetExposed s z).2).1 = (Service_IsExposed s' z).1
  /\ (Service_IsExposed s' (Service_ClearExposed s z).2).1 = (Service_IsExposed s' z).1.
Proof.
  intros Hkey.
  assert (Hpath : Service_zkExposedPath s' <> Service_zkExposedPath s).
  { intros Heq. apply Hkey. apply Service_zkExposedPath_inj. exact Heq. }
  split; [|split; [|split; [|split]]].
  - intros p Hp. split; [apply SetExposed_nodes|apply ClearExposed_nodes]; exact Hp.
  - unfold Service_SetExposed, zk_Create.
    destruct (nodes z !! Service_zkExposedPath s); reflexivity.
  - unfold Service_ClearExposed, zk_Delete.
    destruct (nodes z !! Service_zkExposedPath s); reflexivity.
  - rewrite !IsExposed_node, SetExposed_nodes by exact Hpath. reflexivity.
  - rewrite !IsExposed_node, ClearExposed_nodes by exact Hpath. reflexivity.
Qed.

(** [SetExposed] on [wordpress] and the flag of [logging]. *)
Lemma exposure_is_per_service_witness :
  (Service_IsExposed Sample.logging
     (Service_SetExposed Sample.wordpress Sample.deployed).2).1 = Ok false
  /\ (Service_IsExposed Sample.wordpress
        (Service_SetExposed Sample.wordpress Sample.deployed).2).1 = Ok true.
Proof.
  destruct (exposure_is_per_service Sample.wordpress Sample.logging Sample.deployed)
    as (_ & _ & _ & Hset & _).
  - discriminate.
  - split; [rewrite Hset|]; vm_compute; reflexivity.
Defined.

Lemma SetExposed_marker (s : Service) (z : ZK) :
  is_Some (nodes (Service_SetExposed s z).2 !! Service_zkExposedPath s).
Proof.
  unfold Service_SetExposed, zk_Create.
  destruct (nodes z !! Service_zkExposedPath s) eqn:E; simpl.
  - rewrite E. eauto.
  - rewrite lookup_insert_eq. eauto.
Qed.

Lemma ClearExposed_marker (s : Service) (z : ZK) :
  nodes (Service_ClearExposed s z).2 !! Service_zkExposedPath s = None.
Proof.
  unfold Service_ClearExposed, zk_Delete.
  destruct (nodes z !! Service_zkExposedPath s) eqn:E; simpl.
  - apply lookup_delete_eq.
  - exact E.
Qed.

Lemma ClearExposed_succeeds (s : Service) (z : ZK) :
  (Service_ClearExposed s z).1 = Ok tt.
Proof.
  unfold Service_ClearExposed, zk_Delete.
  destruct (nodes z !! Service_zkExposedPath s); reflexivity.
Qed.

(** X3. [ClearExposed] undoes [SetExposed] and the other way round: after
    [SetExposed] then [ClearExposed] the service is not exposed, and the
    store is the one before the two calls when the service was not exposed
    then; after [ClearExposed] then [SetExposed] the service is exposed. *)
Theorem SetExposed_ClearExposed_undo (s : Service) (z : ZK) :
  (Service_IsExposed s (Service_ClearExposed s (Service_SetExposed s z).2).2).1
  = Ok false
  /\ (Service_ClearExposed s (Service_SetExposed s z).2).1 = Ok tt
  /\ ((Service_IsExposed s z).1 = Ok false ->
      (Service_ClearExposed s (Service_SetExposed s z).2).2 = z)
  /\ (Service_IsExposed s (Service_SetExposed s (Service_ClearExposed s z).2).2).1
     = Ok true.
Proof.
  split; [|split; [|split]].
  - rewrite IsExposed_node, ClearExposed_marker. reflexivity.
  - apply ClearExposed_succeeds.
  - rewrite IsExposed_node. intros [= Hno]. apply bool_decide_eq_false_1 in Hno.
    assert (Hnone : nodes z !! Service_zkExposedPath s = None).
    { destruct (nodes z !! Service_zkExposedPath s); [destruct Hno; eauto|reflexivity]. }
    unfold Service_SetExposed, zk_Create. rewrite Hnone. simpl.
    unfold Service_ClearExposed, zk_Delete. simpl.
    rewrite lookup_insert_eq. simpl.
    rewrite delete_insert_eq, delete_id by exact Hnone. destruct z; reflexivity.
  - rewrite IsExposed_node. f_equal. apply bool_decide_eq_true_2.
    apply SetExposed_marker.
Qed.

(** Exposing and un-exposing [wordpress] as deployed. *)
Lemma SetExposed_ClearExposed_undo_witness :
  (Service_ClearExposed Sample.wordpress
     (Service_SetExposed Sample.wordpress Sample.deployed).2).2 = Sample.deployed.
Proof.
  destruct (SetExposed_ClearExposed_undo Sample.wordpress Sample.deployed)
    as (_ & _ & Hback & _).
  apply Hback. vm_compute. reflexivity.
Defined.

(** ** The charm reference, further *)

Section CharmReference_frame.

Context `{Collaborators}.

Lemma CharmURL_of_node (s : Service) (z z' : ZK) :
  nodes z' !! Service_zkPath s = nodes z !! Service_zkPath s ->
  (Service_CharmURL s z').1 = (Service_CharmURL s z).1.
Proof.
  intros Hsame. unfold Service_CharmURL. rewrite !deferred_eq. cbn [fst]. f_equal.
  unfold readConfigNode, zk_Get, bind. cbv beta. rewrite Hsame.
  destruct (nodes z !! Service_zkPath s) as [[d v]|]; [|reflexivity].
  cbn [fst snd data version]. destruct d as [raw|m|t]; try reflexivity.
  cbn [ret]. destruct (ConfigNode_Get _ "charm") as [[text|n|b]|]; reflexivity.
Qed.

Lemma Config_of_node (s : Service) (z z' : ZK) :
  nodes z' !! Service_zkConfigPath s = nodes z !! Service_zkConfigPath s ->
  (Service_Config s z').1 = (Service_Config s z).1.
Proof.
  intros Hsame. unfold Service_Config, readConfigNode, zk_Get, bind. cbv beta.
  rewrite Hsame.
  destruct (nodes z !! Service_zkConfigPath s) as [[d v]|]; [|reflexivity].
  cbn [fst snd data version]. destruct d as [raw|m|t]; reflexivity.
Qed.

(** What [SetCharmURL] comes to, by the node of the service before the call
    and after the other writers had their turn. *)
Lemma SetCharmURL_cases (s : Service) (url : URL) (z : ZK) :
  match nodes z !! Service_zkPath s with
  | Some {| data := Settings m; version := ver |} =>
    match nodes (others fuel z) !! Service_zkPath s with
    | Some n =>
      if bool_decide (version n = ver) then
        Service_SetCharmURL s url z
        = (Ok tt,
           {| nodes := <[Service_zkPath s :=
                           {| data := Settings (<["charm" := VStr (URL_String url)]> m);
                              version := S ver |}]> (nodes (others fuel z));
              sequence := sequence (others fuel z) |})
      else (Service_SetCharmURL s url z).2 = others fuel z
           /\ is_Err (Service_SetCharmURL s url z).1
    | None => (Service_SetCharmURL s url z).2 = others fuel z
              /\ is_Err (Service_SetCharmURL s url z).1
    end
  | _ => (Service_SetCharmURL s url z).2 = z
         /\ is_Err (Service_SetCharmURL s url z).1
  end.
Proof.
  unfold Service_SetCharmURL. rewrite deferred_eq.
  unfold bind at 1 2 3 4. unfold readConfigNode, bind, zk_Get.
  destruct (nodes z !! Service_zkPath s) as [[d v]|]; [|split; [reflexivity|exact I]].
  cbn [fst snd data version].
  destruct d as [raw|m|t]; try (split; [reflexivity|exact I]).
  cbn [ret suspend fst snd]. unfold ConfigNode_Write, ConfigNode_Set, bind, zk_Set.
  cbn [cn_path cn_settings cn_version].
  destruct (nodes (others fuel z) !! Service_zkPath s) as [n|];
    [|split; [reflexivity|exact I]].
  case_bool_decide; [reflexivity|split; [reflexivity|exact I]].
Qed.

(** X4. A successful [SetCharmURL] rewrites the node of the service with
    the settings it read, the key "charm" set to the text of the URL and
    every other key as read, under the next version stamp; no other node
    and not the sequence counter differ from what the other writers left. *)
Theorem SetCharmURL_sets_charm_only (s : Service) (url : URL) (z z' : ZK) :
  Service_SetCharmURL s url z = (Ok tt, z') ->
  exists m ver,
    nodes z !! Service_zkPath s = Some {| data := Settings m; version := ver |}
    /\ nodes z' !! Service_zkPath s
       = Some {| data := Settings (<["charm" := VStr (URL_String url)]> m);
                 version := S ver |}
    /\ (forall k, k <> "charm" ->
                  (<["charm" := VStr (URL_String url)]> m) !! k = m !! k)
    /\ (forall p, p <> Service_zkPath s ->
                  nodes z' !! p = nodes (others fuel z) !! p)
    /\ sequence z' = sequence (others fuel z).
Proof.
  intros Hok. pose proof (SetCharmURL_cases s url z) as Hcases.
  rewrite Hok in Hcases. cbn [fst snd] in Hcases.
  destruct (nodes z !! Service_zkPath s) as [[d ver]|]; [|destruct Hcases as [_ []]].
  destruct d as [raw|m|t]; try (destruct Hcases as [_ []]).
  destruct (nodes (others fuel z) !! Service_zkPath s) as [n|];
    [|destruct Hcases as [_ []]].
  case_bool_decide; [|destruct Hcases as [_ []]].
  injection Hcases as ->. exists m, ver. cbn [nodes sequence].
  split; [reflexivity|]. split; [apply lookup_insert_eq|].
  split; [intros k Hk; apply lookup_insert_ne; congruence|].
  split; [intros p Hp; apply lookup_insert_ne; congruence|reflexivity].
Qed.

Lemma SetCharmURL_frame (s : Service) (url : URL) (z : ZK) (p : string) :
  (forall n z', others n z' = z') ->
  p <> Service_zkPath s ->
  nodes (Service_SetCharmURL s url z).2 !! p = nodes z !! p.
Proof.
  intros Hquiet Hp. pose proof (SetCharmURL_cases s url z) as Hcases.
  rewrite Hquiet in Hcases.
  destruct (nodes z !! Service_zkPath s) as [[d ver]|];
    [|destruct Hcases as [-> _]; reflexivity].
  destruct d as [raw|m|t]; try (destruct Hcases as [-> _]; reflexivity).
  case_bool_decide; [|destruct Hcases as [-> _]; reflexivity].
  rewrite Hcases. cbn [snd nodes]. apply lookup_insert_ne. congruence.
Qed.

(** X5. With no other writer active, [SetCharmURL] on a service leaves the
    charm URL of every service with another key as it was, whether the call
    succeeds or fails. *)
Theorem SetCharmURL_is_per_service (s s' : Service) (url : URL) (z : ZK) :
  (forall n z', others n z' = z') ->
  s_key s' <> s_key s ->
  (Service_CharmURL s' (Service_SetCharmURL s url z).2).1 = (Service_CharmURL s' z).1.
Proof.
  intros Hquiet Hkey. apply CharmURL_of_node. apply SetCharmURL_frame; [exact Hquiet|].
  intros Heq. apply Hkey. apply Service_zkPath_inj. exact Heq.
Qed.

(** X6. The charm URL is kept in the node of the service, not in its
    configuration node: with no other writer active, [SetCharmURL] leaves
    what [Config] of the same service returns as it was. *)
Theorem SetCharmURL_keeps_Config (s : Service) (url : URL) (z : ZK) :
  (forall n z', others n z' = z') ->
  (Service_Config s (Service_SetCharmURL s url z).2).1 = (Service_Config s z).1.
Proof.
  intros Hquiet. apply Config_of_node. apply SetCharmURL_frame; [exact Hquiet|].
  intros Heq. apply (Service_zkPath_not_config s). symmetry. exact Heq.
Qed.

End CharmReference_frame.

(** A new charm for [wordpress] as deployed. *)
Lemma SetCharmURL_sets_charm_only_witness :
  exists m ver,
    nodes Sample.deployed !! Service_zkPath Sample.wordpress
    = Some {| data := Settings m; version := ver |}
    /\ nodes (Service_SetCharmURL (H := Sample.collaborators) Sample.wordpress
                "cs:precise/wordpress-9" Sample.deployed).2
         !! Service_zkPath Sample.wordpress
       = Some {| data := Settings (<["charm" := VStr "cs:precise/wordpress-9"]> m);
                 version := S ver |}.
Proof.
  destruct (SetCharmURL_sets_charm_only (H := Sample.collaborators) Sample.wordpress
              "cs:precise/wordpress-9" Sample.deployed
              (Service_SetCharmURL (H := Sample.collaborators) Sample.wordpress
                 "cs:precise/wordpress-9" Sample.deployed).2)
    as (m & ver & Hbefore & Hafter & _).
  - vm_compute. reflexivity.
  - exists m, ver. split; [exact Hbefore|exact Hafter].
Defined.

(** A new charm for [wordpress]; the charm of [logging]. *)
Lemma SetCharmURL_is_per_service_witness :
  (Service_CharmURL (H := Sample.collaborators) Sample.logging
     (Service_SetCharmURL (H := Sample.collaborators) Sample.wordpress
        "cs:precise/wordpress-9" Sample.deployed).2).1
  = Ok "local:series/logging-1".
Proof.
  rewrite (SetCharmURL_is_per_service (H := Sample.collaborators) Sample.wordpress
             Sample.logging "cs:precise/wordpress-9" Sample.deployed).
  - vm_compute. reflexivity.
  - reflexivity.
  - discriminate.
Defined.

(** A new charm for [wordpress]; its configuration node is not there, before
    and after. *)
Lemma SetCharmURL_keeps_Config_witness :
  (Service_Config Sample.wordpress
     (Service_SetCharmURL (H := Sample.collaborators) Sample.wordpress
        "cs:precise/wordpress-9" Sample.deployed).2).1
  = (Service_Config Sample.wordpress Sample.deployed).1.
Proof.
  apply (SetCharmURL_keeps_Config (H := Sample.collaborators) Sample.wordpress
           "cs:precise/wordpress-9" Sample.deployed).
  reflexivity.
Defined.

(** ** Adding units, further *)

Section Engine_outcome.

Variable others : nat -> ZK -> ZK.

Lemma retryTopologyChange_Ok_document (n : nat) (f : topology -> result topology) :
  forall z z2,
    retryTopologyChange others n f z = (Ok tt, z2) ->
    exists t t' stamp,
      f t = Ok t'
      /\ nodes z2 !! zkTopologyPath = Some {| data := Topology t'; version := stamp |}.
Proof.
  induction n as [|n IH]; intros z z2; cbn [retryTopologyChange]; [discriminate|].
  unfold readTopologyVersion, bind, zk_Get.
  destruct (nodes z !! zkTopologyPath) as [[d v]|]; [|discriminate].
  cbn [fst snd data version]. destruct d as [raw|m|t]; try discriminate.
  cbn [ret]. destruct (f t) as [t'|e| |] eqn:Hf; try discriminate.
  - unfold zk_Set.
    destruct (nodes (others n z) !! zkTopologyPath) as [node|]; [|discriminate].
    case_bool_decide.
    + intros [= <-]. exists t, t', (S v). split; [exact Hf|].
      cbn [nodes]. apply lookup_insert_eq.
    + cbn [IsError]. rewrite bool_decide_eq_true_2 by reflexivity. apply IH.
  - case_bool_decide; [apply IH|discriminate].
Qed.

End Engine_outcome.

Lemma topology_AddUnit_registers (t t' : topology) (key principalKey : string) :
  topology_AddUnit t key principalKey = Ok t' ->
  (exists record,
      Units t' !! key = Some record /\ unitPrincipal record = principalKey)
  /\ topology_HasUnit t' key = true
  /\ (forall serviceKey, topology_HasService t serviceKey = true ->
                         topology_HasService t' serviceKey = true).
Proof.
  unfold topology_AddUnit.
  destruct (unitKeyParts key) as [[serviceKey seq]|]; [|discriminate].
  destruct (Services t !! serviceKey) as [svc|] eqn:Hsvc; [|discriminate].
  case_bool_decide; [discriminate|]. intros [= <-]. split; [|split].
  - eexists. cbn [Units]. rewrite lookup_insert_eq. split; reflexivity.
  - unfold topology_HasUnit, topology_serviceAndUnit. cbn [Units Services].
    rewrite lookup_insert_eq. cbn [unitService]. rewrite lookup_insert_eq.
    cbn [svcUnits]. rewrite bool_decide_eq_true_2 by set_solver. reflexivity.
  - intros k. unfold topology_HasService. cbn [Services].
    intros Hk. apply bool_decide_eq_true_1 in Hk. apply bool_decide_eq_true_2.
    destruct (decide (serviceKey = k)) as [->|Hne].
    + rewrite lookup_insert_eq. eauto.
    + rewrite lookup_insert_ne by exact Hne. exact Hk.
Qed.

Section AddingUnits_further.

Context `{Collaborators}.

Lemma CharmURL_Ok (s : Service) (z : ZK) (url : URL) :
  (Service_CharmURL s z).1 = Ok url -> Service_CharmURL s z = (Ok url, z).
Proof.
  intros Hurl. pose proof (CharmURL_store s z) as Hs.
  destruct (Service_CharmURL s z) as [r z0]. cbn [fst snd] in *. subst. reflexivity.
Qed.

(** [addUnit] once the charm URL is there and the key is long enough. *)
Lemma addUnit_after_charm (s : Service) (principalKey : string) (z : ZK) (url : URL) :
  (Service_CharmURL s z).1 = Ok url ->
  String.length "service-" <= String.length (s_key s) ->
  Service_addUnit s principalKey z
  = (let key := Base (unit_node_path s (sequence z)) in
     let '(r, z2) := retryTopologyChange others fuel
                       (addUnit_mutator s key principalKey) (with_unit_node s url z) in
     (errorContextf (addUnit_context s)
        match r with
        | Ok _ => Ok {| u_key := key;
                        u_serviceName := s_name s;
                        u_isPrincipal := bool_decide (principalKey = "") |}
        | Err e => Err e
        | Panic => Panic
        | OutOfFuel => OutOfFuel
        end, z2)).
Proof.
  intros Hurl Hlen. unfold Service_addUnit, deferred.
  pose proof (CharmURL_Ok s z url Hurl) as Hcharm.
  rewrite (bind_Ok _ _ _ _ _ Hcharm).
  unfold slice_from. rewrite bool_decide_eq_true_2 by exact Hlen.
  unfold bind, lift, zk_Create, ret. cbv beta iota zeta.
  fold (unit_node_path s (sequence z)). fold (with_unit_node s url z).
  fold (addUnit_context s).
  destruct (retryTopologyChange others fuel _ (with_unit_node s url z))
    as [[[]|e| |] z2]; reflexivity.
Qed.

(** X7. The slice [s.key[len("service-"):]]: for a service whose key is
    shorter than "service-" and whose charm URL resolves, [addUnit] panics,
    and it does so before it creates a node: the store is as before. *)
Theorem addUnit_short_key_panics (s : Service) (principalKey : string) (z : ZK)
  (url : URL) :
  (Service_CharmURL s z).1 = Ok url ->
  String.length (s_key s) < String.length "service-" ->
  Service_addUnit s principalKey z = (Panic, z).
Proof.
  intros Hurl Hlen. unfold Service_addUnit.
  pose proof (CharmURL_Ok s z url Hurl) as Hcharm.
  apply (deferred_of _ _ _ _ Panic).
  rewrite (bind_Ok _ _ _ _ _ Hcharm).
  unfold slice_from. rewrite bool_decide_eq_false_2 by lia. reflexivity.
Qed.

Lemma unit_node_path_not_topology (s : Service) (n : nat) :
  unit_node_path s n <> zkTopologyPath.
Proof. unfold unit_node_path, Service_zkPath, zkTopologyPath. discriminate. Qed.

(** X8. [addUnit] creates the node of the unit before it changes the
    topology and does not take it back: when the transaction engine fails,
    [addUnit] returns the error of the engine, annotated, on the store the
    engine left. So with the topology document missing, [addUnit] fails and
    the store has gained the node of the unit, holding the charm URL, and
    the sequence counter has moved on. *)
Theorem addUnit_keeps_the_node_on_failure (s : Service) (principalKey : string)
  (z : ZK) (url : URL) :
  (Service_CharmURL s z).1 = Ok url ->
  String.length "service-" <= String.length (s_key s) ->
  (forall e z2,
      retryTopologyChange others fuel
        (addUnit_mutator s (Base (unit_node_path s (sequence z))) principalKey)
        (with_unit_node s url z) = (Err e, z2) ->
      Service_addUnit s principalKey z = (Err (Context (addUnit_context s) e), z2))
  /\ (nodes z !! zkTopologyPath = None -> 0 < fuel ->
      Service_addUnit s principalKey z
      = (Err (Context (addUnit_context s) (ZkError ZNONODE)), with_unit_node s url z)
      /\ nodes (with_unit_node s url z) !! unit_node_path s (sequence z)
         = Some {| data := Settings {[ "charm" := VStr (URL_String url) ]};
                   version := 0 |}
      /\ sequence (with_unit_node s url z) = S (sequence z)).
Proof.
  intros Hurl Hlen.
  assert (Hfail : forall e z2,
             retryTopologyChange others fuel
               (addUnit_mutator s (Base (unit_node_path s (sequence z))) principalKey)
               (with_unit_node s url z) = (Err e, z2) ->
             Service_addUnit s principalKey z
             = (Err (Context (addUnit_context s) e), z2)).
  { intros e z2 Hengine. rewrite (addUnit_after_charm s principalKey z url Hurl Hlen).
    cbv zeta. rewrite Hengine. reflexivity. }
  split; [exact Hfail|].
  intros Hnone Hfuel. split; [|split].
  - apply Hfail. destruct fuel as [|n]; [inversion Hfuel|].
    cbn [retryTopologyChange]. unfold readTopologyVersion, bind, zk_Get.
    unfold with_unit_node at 1. cbn [nodes].
    rewrite lookup_insert_ne by apply unit_node_path_not_topology.
    rewrite Hnone. reflexivity.
  - unfold with_unit_node. cbn [nodes]. apply lookup_insert_eq.
  - reflexivity.
Qed.

(** X9. A unit that [addUnit] returns is in the topology document of the
    store the call leaves: the document holds a record under the key of the
    unit, with the principal key that was given, and the principal flag of
    the returned view is the one the record gives. The service is still in
    the document. *)
Theorem addUnit_registers_the_unit (s : Service) (principalKey : string)
  (z z' : ZK) (u : Unit) :
  Service_addUnit s principalKey z = (Ok u, z') ->
  exists t' stamp record,
    nodes z' !! zkTopologyPath = Some {| data := Topology t'; version := stamp |}
    /\ Units t' !! u_key u = Some record
    /\ unitPrincipal record = principalKey
    /\ topoUnit_isPrincipal record = u_isPrincipal u
    /\ topology_HasUnit t' (u_key u) = true
    /\ topology_HasService t' (s_key s) = true.
Proof.
  unfold Service_addUnit. intros Hok. apply deferred_Ok_inv in Hok.
  apply bind_Ok_inv in Hok as (url & z1 & _ & Hok).
  apply bind_Ok_inv in Hok as (suffix & z2 & _ & Hok).
  apply bind_Ok_inv in Hok as (path & z3 & _ & Hok).
  apply bind_Ok_inv in Hok as ([] & z4 & Hengine & Hok).
  unfold ret in Hok. injection Hok as <- <-.
  apply retryTopologyChange_Ok_document in Hengine as (t & t' & stamp & Hmut & Hnode).
  unfold addUnit_mutator in Hmut.
  destruct (topology_HasService t (s_key s)) eqn:Hsvc; [|discriminate].
  cbn [negb] in Hmut.
  apply topology_AddUnit_registers in Hmut as ((record & Hrec & Hprin) & Hhas & Hkeep).
  exists t', stamp, record. cbn [u_key u_isPrincipal].
  split; [exact Hnode|]. split; [exact Hrec|]. split; [exact Hprin|].
  split; [unfold topoUnit_isPrincipal; rewrite Hprin; reflexivity|].
  split; [exact Hhas|apply Hkeep; exact Hsvc].
Qed.

(** X10. A unit that [AddUnitSubordinateTo] returns carries the name of the
    service, and its principal flag is set exactly when the key of the
    principal it was given is empty: the flag is computed from that key, not
    from the charm. *)
Theorem AddUnitSubordinateTo_view (s : Service) (principal : Unit) (z z' : ZK)
  (u : Unit) :
  Service_AddUnitSubordinateTo s principal z = (Ok u, z') ->
  u_serviceName u = s_name s
  /\ u_isPrincipal u = bool_decide (u_key principal = "").
Proof.
  unfold Service_AddUnitSubordinateTo. intros Hok.
  apply bind_Ok_inv in Hok as (ch & z1 & _ & Hok).
  destruct (negb (Subordinate ch)); [discriminate|].
  apply bind_Ok_inv in Hok as (ok & z2 & _ & Hok).
  destruct (negb ok); [discriminate|].
  apply addUnit_view in Hok as [Hflag Hname]. split; assumption.
Qed.

End AddingUnits_further.

(** ** Unit keys as text *)

Lemma append_assoc (a b c : string) : (a ++ b) ++ c = a ++ (b ++ c).
Proof.
  induction a as [|x a IH]; [reflexivity|].
  change (String x ((a ++ b) ++ c) = String x (a ++ (b ++ c))). rewrite IH. reflexivity.
Qed.

Lemma free_of_app (c : ascii) (a b : string) :
  free_of c (a ++ b) = free_of c a && free_of c b.
Proof.
  induction a as [|x a IH]; [reflexivity|].
  change (negb (Ascii.eqb x c) && free_of c (a ++ b)
          = negb (Ascii.eqb x c) && free_of c a && free_of c b).
  rewrite IH. apply andb_assoc.
Qed.

Lemma split_last_free (c : ascii) (y : string) :
  free_of c y = true -> split_last c y = None.
Proof.
  induction y as [|a y IH]; [reflexivity|]. cbn [free_of split_last].
  intros Hfree. apply andb_prop in Hfree as [Ha Hy]. rewrite (IH Hy).
  apply negb_true_iff in Ha. rewrite Ha. reflexivity.
Qed.

Lemma split_last_app (c : ascii) (x y : string) :
  free_of c y = true -> split_last c (x ++ String c y) = Some (x, y).
Proof.
  intros Hfree. induction x as [|a x IH].
  - change (split_last c (String c y) = Some (EmptyString, y)).
    cbn [split_last]. rewrite (split_last_free c y Hfree), Ascii.eqb_refl. reflexivity.
  - change (split_last c (String a (x ++ String c y)) = Some (String a x, y)).
    cbn [split_last]. rewrite IH. reflexivity.
Qed.

Lemma strip_trailing_free (c : ascii) (y : string) :
  free_of c y = true -> strip_trailing c y = y.
Proof.
  induction y as [|a y IH]; [reflexivity|]. cbn [free_of strip_trailing].
  intros Hfree. apply andb_prop in Hfree as [Ha Hy]. rewrite (IH Hy).
  apply negb_true_iff in Ha. rewrite Ha. destruct y; reflexivity.
Qed.

Lemma strip_trailing_app (c : ascii) (x y : string) :
  y <> EmptyString -> strip_trailing c y = y -> strip_trailing c (x ++ y) = x ++ y.
Proof.
  intros Hne Hy. induction x as [|a x IH]; [exact Hy|].
  change (strip_trailing c (String a (x ++ y)) = String a (x ++ y)).
  cbn [strip_trailing]. rewrite IH.
  destruct (x ++ y) eqn:E; [|reflexivity].
  destruct x; [|discriminate]. destruct Hne. exact E.
Qed.

(** [path.Base] of a path that ends in a non-empty element. *)
Lemma Base_last_element (dir last : string) :
  free_of slash last = true -> last <> EmptyString ->
  Base (dir ++ String slash last) = last.
Proof.
  intros Hfree Hne.
  assert (Hstrip : strip_trailing slash (dir ++ String slash last)
                   = dir ++ String slash last).
  { apply strip_trailing_app; [discriminate|].
    cbn [strip_trailing]. rewrite (strip_trailing_free slash last Hfree).
    destruct last; [destruct Hne; reflexivity|reflexivity]. }
  unfold Base.
  destruct (dir ++ String slash last) as [|a p] eqn:E.
  { destruct dir; discriminate. }
  rewrite Hstrip, <- E, (split_last_app slash dir last Hfree). reflexivity.
Qed.

Lemma zeros_length (n : nat) : String.length (zeros n) = n.
Proof.
  induction n as [|n IH]; [reflexivity|].
  change (S (String.length (zeros n)) = S n). rewrite IH. reflexivity.
Qed.

Lemma zeros_free (c : ascii) (n : nat) :
  Ascii.eqb "0"%char c = false -> free_of c (zeros n) = true.
Proof.
  intros Hc. induction n as [|n IH]; [reflexivity|].
  change (negb (Ascii.eqb "0"%char c) && free_of c (zeros n) = true).
  rewrite Hc, IH. reflexivity.
Qed.

Lemma string_of_uint_free_slash (d : Decimal.uint) :
  free_of slash (NilEmpty.string_of_uint d) = true.
Proof. induction d; cbn [NilEmpty.string_of_uint free_of]; try rewrite IHd; reflexivity. Qed.

Lemma string_of_uint_free_dash (d : Decimal.uint) :
  free_of dash (NilEmpty.string_of_uint d) = true.
Proof. induction d; cbn [NilEmpty.string_of_uint free_of]; try rewrite IHd; reflexivity. Qed.

Lemma pad10_free_slash (n : nat) : free_of slash (pad10 n) = true.
Proof.
  unfold pad10, decimal. cbv zeta. rewrite free_of_app, string_of_uint_free_slash.
  rewrite zeros_free by reflexivity. reflexivity.
Qed.

Lemma pad10_free_dash (n : nat) : free_of dash (pad10 n) = true.
Proof.
  unfold pad10, decimal. cbv zeta. rewrite free_of_app, string_of_uint_free_dash.
  rewrite zeros_free by reflexivity. reflexivity.
Qed.

Lemma pad10_length (n : nat) : 10 <= String.length (pad10 n).
Proof.
  unfold pad10. cbv zeta. rewrite append_length, zeros_length. lia.
Qed.

Lemma pad10_not_empty (n : nat) : pad10 n <> EmptyString.
Proof.
  intros Heq. pose proof (pad10_length n) as Hlen. rewrite Heq in Hlen.
  cbn in Hlen. lia.
Qed.

Lemma uint_of_string_zeros (k : nat) (s : string) (d : Decimal.uint) :
  NilEmpty.uint_of_string s = Some d ->
  exists d', NilEmpty.uint_of_string (zeros k ++ s) = Some d'
             /\ Nat.of_uint d' = Nat.of_uint d.
Proof.
  intros Hs. induction k as [|k (d' & Hd' & Hval)]; [eauto|].
  exists (Decimal.D0 d'). split.
  - change (NilEmpty.uint_of_string (String "0" (zeros k ++ s))
            = Some (Decimal.D0 d')).
    cbn [NilEmpty.uint_of_string]. rewrite Hd'. reflexivity.
  - rewrite <- Hval. reflexivity.
Qed.

(** The suffix of a sequential node reads back as its number. *)
Lemma parse_nat_pad10 (n : nat) : parse_nat (pad10 n) = Some n.
Proof.
  unfold parse_nat.
  destruct (uint_of_string_zeros (10 - String.length (decimal n)) (decimal n)
              (Nat.to_uint n)) as (d' & Hd' & Hval).
  { apply NilEmpty.usu. }
  fold (pad10 n) in Hd'.
  destruct (pad10 n) eqn:E; [destruct (pad10_not_empty n E)|].
  rewrite Hd'. cbn [fmap option_fmap option_map]. f_equal.
  rewrite Hval. apply DecimalNat.Unsigned.of_to.
Qed.

(** The key [addUnit] mints is the key [makeUnitKey] builds. *)
Lemma Base_unit_node_path (s : Service) (n : nat) :
  free_of slash (drop_prefix (String.length "service-") (s_key s)) = true ->
  Base (unit_node_path s n) = makeUnitKey (s_key s) n.
Proof.
  intros Hfree. unfold unit_node_path, makeUnitKey.
  set (suffix := drop_prefix (String.length "service-") (s_key s)) in *.
  rewrite (append_assoc (Service_zkPath s)).
  change ("/units/unit-" ++ suffix ++ "-")
    with ("/units" ++ String slash ("unit-" ++ suffix ++ "-")).
  rewrite (append_assoc "/units"), <- (append_assoc (Service_zkPath s) "/units").
  change (String slash ("unit-" ++ suffix ++ "-") ++ pad10 n)
    with (String slash (("unit-" ++ suffix ++ "-") ++ pad10 n)).
  rewrite Base_last_element.
  - rewrite !append_assoc. reflexivity.
  - rewrite !free_of_app, Hfree, pad10_free_slash. reflexivity.
  - discriminate.
Qed.

Lemma prefix_app (p x : string) : String.prefix p (p ++ x) = true.
Proof.
  induction p as [|a p IH]; [destruct x; reflexivity|].
  change (String.prefix (String a p) (String a (p ++ x)) = true).
  cbn [String.prefix]. destruct (ascii_dec a a) as [_|Hne]; [exact IH|].
  destruct Hne. reflexivity.
Qed.

Lemma drop_prefix_app (p x : string) : drop_prefix (String.length p) (p ++ x) = x.
Proof.
  induction p as [|a p IH]; [destruct x; reflexivity|].
  change (drop_prefix (S (String.length p)) (String a (p ++ x)) = x). exact IH.
Qed.

Lemma unitKeyParts_makeUnitKey (suffix : string) (n : nat) :
  unitKeyParts (makeUnitKey ("service-" ++ suffix) n) = Some ("service-" ++ suffix, n).
Proof.
  unfold makeUnitKey, unitKeyParts.
  rewrite (drop_prefix_app "service-" suffix).
  rewrite (prefix_app "unit-"), (drop_prefix_app "unit-").
  change (suffix ++ "-" ++ pad10 n) with (suffix ++ String dash (pad10 n)).
  rewrite (split_last_app dash suffix (pad10 n) (pad10_free_dash n)).
  rewrite parse_nat_pad10. reflexivity.
Qed.

(** ** A unit added is a unit found *)

Lemma assemble_units_Ok (s : Service) (t : topology) (keys : list string) :
  forall acc units,
    assemble_units s t keys acc = Ok units ->
    units = (acc ++ (unit_view s t <$> keys))%list.
Proof.
  induction keys as [|key rest IH]; intros acc units; cbn [assemble_units].
  - intros [= <-]. rewrite app_nil_r. reflexivity.
  - destruct (topology_serviceAndUnit t key) as [su|e| |] eqn:Hsu; try discriminate.
    intros Hok. apply IH in Hok. subst units. rewrite <- app_assoc. f_equal.
    rewrite fmap_cons. cbn [app]. f_equal.
    unfold unit_view. rewrite (serviceAndUnit_Ok_record _ _ _ Hsu). reflexivity.
Qed.

Lemma topology_AddUnit_listed (t t' : topology) (key principalKey serviceKey : string)
  (seq : nat) :
  unitKeyParts key = Some (serviceKey, seq) ->
  topology_AddUnit t key principalKey = Ok t' ->
  exists svc, Services t' !! serviceKey = Some svc /\ key ∈ svcUnits svc.
Proof.
  intros Hparts. unfold topology_AddUnit. rewrite Hparts.
  destruct (Services t !! serviceKey) as [svc|]; [|discriminate].
  case_bool_decide; [discriminate|]. intros [= <-]. cbn [Services].
  eexists. rewrite lookup_insert_eq. split; [reflexivity|]. cbn [svcUnits]. set_solver.
Qed.

Section Added_units.

Context `{Collaborators}.

(** What a successful [addUnit] has done. *)
Lemma addUnit_Ok_facts (s : Service) (principalKey : string) (z z' : ZK) (u : Unit) :
  Service_addUnit s principalKey z = (Ok u, z') ->
  u = {| u_key := Base (unit_node_path s (sequence z));
         u_serviceName := s_name s;
         u_isPrincipal := bool_decide (principalKey = "") |}
  /\ exists t t' stamp,
      topology_HasService t (s_key s) = true
      /\ topology_AddUnit t (u_key u) principalKey = Ok t'
      /\ nodes z' !! zkTopologyPath = Some {| data := Topology t'; version := stamp |}.
Proof.
  unfold Service_addUnit. intros Hok. apply deferred_Ok_inv in Hok.
  apply bind_Ok_inv in Hok as (url & z1 & Hcharm & Hok).
  assert (z1 = z) as ->.
  { rewrite <- (CharmURL_store s z), Hcharm. reflexivity. }
  apply bind_Ok_inv in Hok as (suffix & z2 & Hslice & Hok).
  unfold lift, slice_from in Hslice.
  destruct (bool_decide _) in Hslice; [|discriminate Hslice].
  injection Hslice as <- <-.
  apply bind_Ok_inv in Hok as (path & z3 & Hcreate & Hok).
  unfold zk_Create in Hcreate. injection Hcreate as <- <-.
  apply bind_Ok_inv in Hok as ([] & z4 & Hengine & Hok).
  unfold ret in Hok. injection Hok as <- <-.
  fold (unit_node_path s (sequence z)) in *.
  split; [reflexivity|]. cbn [u_key].
  apply retryTopologyChange_Ok_document in Hengine as (t & t' & stamp & Hmut & Hnode).
  unfold addUnit_mutator in Hmut.
  destruct (topology_HasService t (s_key s)) eqn:Hsvc; [|discriminate].
  exists t, t', stamp. auto.
Qed.

(** X11. A unit added is found again by name. When [addUnit] returns a
    unit, the part of the service key after "service-" holding no slash,
    then [Unit], called on the store [addUnit] left with a name that parses
    to the name of the service and the sequence number [addUnit] drew,
    returns that very unit. *)
Theorem addUnit_then_Unit (s : Service) (principalKey name : string) (z z' : ZK)
  (u : Unit) :
  Service_addUnit s principalKey z = (Ok u, z') ->
  free_of slash (drop_prefix (String.length "service-") (s_key s)) = true ->
  parseUnitName name = Ok (s_name s, sequence z) ->
  Service_Unit s name z' = (Ok u, z').
Proof.
  intros Hadd Hfree Hname.
  destruct (addUnit_Ok_facts s principalKey z z' u Hadd)
    as (Hu & t & t' & stamp & Hsvc & Hmut & Hnode).
  apply topology_AddUnit_registers in Hmut as ((record & Hrec & Hprin) & Hhas & Hkeep).
  rewrite (Unit_reads_topology s name (sequence z) z' Hname).
  assert (Hread : (readTopology z').1 = Ok t').
  { unfold readTopology. rewrite (bind_Ok _ _ _ _ _ (readTopologyVersion_node _ _ _ Hnode)).
    reflexivity. }
  rewrite Hread, (Hkeep _ Hsvc). cbn [negb].
  rewrite <- (Base_unit_node_path s (sequence z) Hfree).
  assert (Hkey : u_key u = Base (unit_node_path s (sequence z))) by (rewrite Hu; reflexivity).
  rewrite <- Hkey.
  apply HasUnit_serviceAndUnit in Hhas as [su Hsu]. rewrite Hsu.
  apply serviceAndUnit_Ok_record in Hsu. rewrite Hrec in Hsu. injection Hsu as <-.
  cbn [errorContextf]. f_equal. f_equal. rewrite Hu. cbn [u_key].
  unfold topoUnit_isPrincipal. rewrite Hprin. reflexivity.
Qed.

(** X12. A unit added is listed. When [addUnit] returns a unit for a service
    whose key is "service-" followed by text without a slash, every list
    that [AllUnits] returns on the store [addUnit] left holds that unit. *)
Theorem addUnit_then_AllUnits (s : Service) (principalKey suffix : string)
  (z z' : ZK) (u : Unit) (units : list Unit) :
  Service_addUnit s principalKey z = (Ok u, z') ->
  s_key s = "service-" ++ suffix ->
  free_of slash suffix = true ->
  (Service_AllUnits s z').1 = Ok units ->
  u ∈ units.
Proof.
  intros Hadd Hkey Hfree Hall.
  destruct (addUnit_Ok_facts s principalKey z z' u Hadd)
    as (Hu & t & t' & stamp & Hsvc & Hmut & Hnode).
  assert (Hfree' : free_of slash (drop_prefix (String.length "service-") (s_key s)) = true).
  { rewrite Hkey, (drop_prefix_app "service-"). exact Hfree. }
  assert (Hukey : u_key u = makeUnitKey (s_key s) (sequence z)).
  { rewrite Hu. cbn [u_key]. apply Base_unit_node_path. exact Hfree'. }
  assert (Hparts : unitKeyParts (u_key u) = Some (s_key s, sequence z)).
  { rewrite Hukey, Hkey. apply unitKeyParts_makeUnitKey. }
  destruct (topology_AddUnit_listed _ _ _ _ _ _ Hparts Hmut) as (svc & Hsvc' & Hin).
  apply topology_AddUnit_registers in Hmut as ((record & Hrec & Hprin) & _ & _).
  assert (Hread : readTopology z' = (Ok t', z')).
  { unfold readTopology. rewrite (bind_Ok _ _ _ _ _ (readTopologyVersion_node _ _ _ Hnode)).
    reflexivity. }
  unfold Service_AllUnits in Hall. rewrite deferred_eq in Hall. cbn [fst] in Hall.
  rewrite (bind_Ok _ _ _ _ _ Hread) in Hall.
  unfold topology_HasService in Hall.
  rewrite bool_decide_eq_true_2 in Hall by (rewrite Hsvc'; eauto).
  cbn [negb] in Hall. unfold bind, lift, topology_UnitKeys in Hall.
  rewrite Hsvc' in Hall. cbn [fst snd] in Hall.
  destruct (assemble_units s t' (elements (svcUnits svc)) []) as [us|e| |] eqn:Has;
    try discriminate.
  cbn [errorContextf] in Hall. injection Hall as <-.
  apply assemble_units_Ok in Has. rewrite Has. cbn [app].
  apply list_elem_of_fmap. exists (u_key u). split.
  - unfold unit_view. rewrite Hrec. cbn [from_option].
    unfold topoUnit_isPrincipal. rewrite Hprin, Hu. reflexivity.
  - apply elem_of_elements. exact Hin.
Qed.

End Added_units.

(** ** Removing units, further *)

Section RemovingUnits_further.

Context `{Collaborators}.





(** X15. [Unit] and [AllUnits] agree. When [Unit] returns a unit and
    [AllUnits], on the same store, returns a list, every unit of the list
    with the key of that unit is that unit. *)
Theorem Unit_agrees_with_AllUnits (s : Service) (name : string) (z : ZK) (u : Unit)
  (units : list Unit) :
  (Service_Unit s name z).1 = Ok u ->
  (Service_AllUnits s z).1 = Ok units ->
  forall u', u' ∈ units -> u_key u' = u_key u -> u' = u.
Proof.
  intros Hunit Hall u' Hin Hkey.
  pose proof (readTopology_pair z) as Hread.
  (* what AllUnits read *)
  unfold Service_AllUnits in Hall. rewrite deferred_eq in Hall. cbn [fst] in Hall.
  unfold bind at 1 in Hall. rewrite Hread in Hall.
  destruct (readTopology z).1 as [t|e| |] eqn:Ht; try discriminate.
  destruct (topology_HasService t (s_key s)); [|discriminate]. cbn [negb] in Hall.
  unfold bind, lift, topology_UnitKeys in Hall.
  destruct (Services t !! s_key s) as [svc|]; [|discriminate]. cbn [fst snd] in Hall.
  destruct (assemble_units s t (elements (svcUnits svc)) []) as [us|e| |] eqn:Has;
    try discriminate.
  cbn [errorContextf] in Hall. injection Hall as <-.
  apply assemble_units_Ok in Has. rewrite Has in Hin. cbn [app] in Hin.
  apply list_elem_of_fmap in Hin as (key & -> & _).
  cbn [unit_view u_key] in Hkey. subst key.
  (* what Unit read *)
  unfold Service_Unit in Hunit. rewrite deferred_eq in Hunit. cbn [fst] in Hunit.
  unfold bind at 1 in Hunit. unfold lift at 1 in Hunit.
  destruct (parseUnitName name) as [[serviceName id]|e| |]; try discriminate.
  cbn [fst snd] in Hunit.
  destruct (negb (serviceName =? s_name s)%string); [discriminate|].
  unfold bind at 1 in Hunit. rewrite Hread in Hunit.
  destruct (negb (topology_HasService t (s_key s))); [discriminate|].
  unfold bind, lift in Hunit.
  destruct (topology_serviceAndUnit t (makeUnitKey (s_key s) id)) as [su|e| |] eqn:Hsu;
    try discriminate.
  cbn [ret fst errorContextf] in Hunit. injection Hunit as <-. cbn [u_key].
  unfold unit_view. rewrite (serviceAndUnit_Ok_record _ _ _ Hsu). reflexivity.
Qed.

End RemovingUnits_further.

(** * Properties of the grant and revoke commands *)

(** X16. [Init] accepts an argument list exactly when it has two entries or
    more. It then takes the first entry as the user and the others as the
    model names, so that there is a model name, and leaves the access level
    alone. It turns down an empty list with "no user specified" and a list
    of one with "no model specified", and then leaves the command as it
    was. *)
Theorem accessCommand_Init_arguments (c : accessCommand) (args : list string) :
  ((accessCommand_Init c args).2 = Ok tt <-> 2 <= length args)
  /\ ((accessCommand_Init c args).2 = Ok tt ->
      User (accessCommand_Init c args).1 :: ModelNames (accessCommand_Init c args).1
      = args
      /\ ModelNames (accessCommand_Init c args).1 <> []
      /\ ModelAccess (accessCommand_Init c args).1 = ModelAccess c)
  /\ (length args = 0 ->
      accessCommand_Init c args = (c, Err (Errorf "no user specified")))
  /\ (length args = 1 ->
      accessCommand_Init c args = (c, Err (Errorf "no model specified"))).
Proof.
  unfold accessCommand_Init.
  destruct args as [|user [|model rest]]; cbn [length].
  - rewrite bool_decide_eq_true_2 by lia. cbn [fst snd].
    repeat split; try discriminate; try lia.
  - rewrite bool_decide_eq_false_2 by lia. rewrite bool_decide_eq_true_2 by lia.
    cbn [fst snd]. repeat split; try discriminate; try lia.
  - rewrite !bool_decide_eq_false_2 by lia. cbn [fst snd head drop default User
      ModelNames ModelAccess].
    repeat split; try discriminate; try lia.
Qed.

Section ModelUUIDs.

Context `{AccessEnvironment}.

Lemma modelUUIDs_loop_length (names : list string) :
  forall acc store uuids store',
    modelUUIDs_loop names acc store = (Ok uuids, store') ->
    length uuids = length acc + length names.
Proof.
  induction names as [|name rest IH]; intros acc store uuids store';
    cbn [modelUUIDs_loop length].
  - intros [= <- _]. lia.
  - destruct (lookup_not_found (ModelByName store name)).
    + destruct (RefreshModels store) as [[[]|e| |] store1]; try discriminate.
      destruct (ModelByName store1 name) as [model|e| |]; try discriminate.
      intros Hok. apply IH in Hok. rewrite Hok, length_app. cbn [length]. lia.
    + destruct (ModelByName store name) as [model|e| |]; try discriminate.
      intros Hok. apply IH in Hok. rewrite Hok, length_app. cbn [length]. lia.
Qed.

(** X17. When [modelUUIDs] succeeds it returns one UUID for each model name
    of the command. *)
Theorem modelUUIDs_one_per_name (c : accessCommand) (store store' : ClientStore)
  (uuids : list string) :
  accessCommand_modelUUIDs c store = (Ok uuids, store') ->
  length uuids = length (ModelNames c).
Proof.
  unfold accessCommand_modelUUIDs. intros Hok.
  apply modelUUIDs_loop_length in Hok. exact Hok.
Qed.

Lemma modelUUIDs_loop_known (names : list string) :
  forall acc store,
    (forall name, name ∈ names -> is_Ok (ModelByName store name)) ->
    modelUUIDs_loop names acc store
    = (Ok (acc ++ (known_uuid store <$> names))%list, store).
Proof.
  induction names as [|name rest IH]; intros acc store Hknown;
    cbn [modelUUIDs_loop].
  - rewrite app_nil_r. reflexivity.
  - assert (Hname : is_Ok (ModelByName store name)) by (apply Hknown; left).
    rewrite fmap_cons. unfold known_uuid at 1.
    destruct (ModelByName store name) as [model|e| |]; try contradiction.
    cbn [lookup_not_found]. rewrite IH.
    + rewrite <- app_assoc. reflexivity.
    + intros k Hk. apply Hknown. right. exact Hk.
Qed.

(** X18. When the client store knows every model name of the command,
    [modelUUIDs] returns their UUIDs in the order of the names and does not
    refresh the store. *)
Theorem modelUUIDs_of_known_models (c : accessCommand) (store : ClientStore) :
  (forall name, name ∈ ModelNames c -> is_Ok (ModelByName store name)) ->
  accessCommand_modelUUIDs c store = (Ok (known_uuid store <$> ModelNames c), store).
Proof.
  intros Hknown. unfold accessCommand_modelUUIDs.
  rewrite (modelUUIDs_loop_known _ [] store Hknown). reflexivity.
Qed.



Lemma modelUUIDs_loop_no_refresh (names : list string) :
  forall acc store,
    (forall name e, ModelByName store name = Err e -> IsNotFound e = false) ->
    (modelUUIDs_loop names acc store).2 = store.
Proof.
  induction names as [|name rest IH]; intros acc store Hnever;
    cbn [modelUUIDs_loop]; [reflexivity|].
  destruct (ModelByName store name) as [model|e| |] eqn:Hlookup; cbn [lookup_not_found].
  - apply IH. exact Hnever.
  - rewrite (Hnever name e Hlookup). reflexivity.
  - reflexivity.
  - reflexivity.
Qed.

(** X20. [modelUUIDs] refreshes the client store only on a not-found error:
    on a store whose lookups never fail with a not-found error, the store
    after the call is the store before it, whatever the result. *)
Theorem modelUUIDs_refreshes_on_not_found_only (c : accessCommand)
  (store : ClientStore) :
  (forall name e, ModelByName store name = Err e -> IsNotFound e = false) ->
  (accessCommand_modelUUIDs c store).2 = store.
Proof. intros Hnever. apply modelUUIDs_loop_no_refresh. exact Hnever. Qed.

(** X21. The calls of [grantCommand.Run] on the API client. Without a
    client, [Run] returns the error of [getAPI], calls nothing and leaves
    the client store alone. With a client, the client is closed, once, by
    the last call, on every path; [GrantModel] is called only when every
    model name resolved, once, with the user, the access level and the
    resolved UUIDs, and its answer goes through [ProcessBlockedError]; an
    error of [modelUUIDs] is returned as it is. *)
Theorem grantCommand_Run_calls (c : grantCommand) (store : ClientStore) :
  (forall e, grantCommand_getAPI c = Err e ->
             grantCommand_Run c store
             = ({| run_result := Err e; run_calls := [] |}, store))
  /\ (forall client, grantCommand_getAPI c = Ok client ->
        (grantCommand_Run c store).2
        = (accessCommand_modelUUIDs (grant_accessCommand c) store).2
        /\ last (run_calls (grantCommand_Run c store).1) = Some CallClose
        /\ length (List.filter is_Close
                     (run_calls (grantCommand_Run c store).1)) = 1
        /\ (forall user access uuids,
              CallGrantModel user access uuids
              ∈ run_calls (grantCommand_Run c store).1 ->
              user = User (grant_accessCommand c)
              /\ access = ModelAccess (grant_accessCommand c)
              /\ (accessCommand_modelUUIDs (grant_accessCommand c) store).1 = Ok uuids
              /\ run_calls (grantCommand_Run c store).1
                 = [CallGrantModel user access uuids; CallClose]
              /\ run_result (grantCommand_Run c store).1
                 = ProcessBlockedError (GrantModel client user access uuids))
        /\ (forall e,
              (accessCommand_modelUUIDs (grant_accessCommand c) store).1 = Err e ->
              (grantCommand_Run c store).1
              = {| run_result := Err e; run_calls := [CallClose] |})
        /\ (forall user access uuids,
              CallRevokeModel user access uuids
              ∉ run_calls (grantCommand_Run c store).1)).
Proof.
  split.
  - intros e Hapi. unfold grantCommand_Run. rewrite Hapi. reflexivity.
  - intros client Hapi. unfold grantCommand_Run. rewrite Hapi.
    destruct (accessCommand_modelUUIDs (grant_accessCommand c) store)
      as [[uuids|e| |] store']; cbn [fst snd run_calls run_result];
      (split; [reflexivity|]); (split; [reflexivity|]); (split; [reflexivity|]);
      (split; [|split]).
    all: try (intros user access ids Hin;
              repeat (apply elem_of_cons in Hin as [Hin|Hin]; try discriminate);
              try (inversion Hin; fail)).
    all: try (intros e' [=]; subst; reflexivity).
    all: try discriminate.
    injection Hin as -> -> ->. auto.
Qed.

(** X22. The calls of [revokeCommand.Run] on the API client: as for
    [grantCommand.Run], with [RevokeModel] in the place of [GrantModel]. *)
Theorem revokeCommand_Run_calls (c : revokeCommand) (store : ClientStore) :
  (forall e, revokeCommand_getAPI c = Err e ->
             revokeCommand_Run c store
             = ({| run_result := Err e; run_calls := [] |}, store))
  /\ (forall client, revokeCommand_getAPI c = Ok client ->
        (revokeCommand_Run c store).2
        = (accessCommand_modelUUIDs (revoke_accessCommand c) store).2
        /\ last (run_calls (revokeCommand_Run c store).1) = Some CallClose
        /\ length (List.filter is_Close
                     (run_calls (revokeCommand_Run c store).1)) = 1
        /\ (forall user access uuids,
              CallRevokeModel user access uuids
              ∈ run_calls (revokeCommand_Run c store).1 ->
              user = User (revoke_accessCommand c)
              /\ access = ModelAccess (revoke_accessCommand c)
              /\ (accessCommand_modelUUIDs (revoke_accessCommand c) store).1 = Ok uuids
              /\ run_calls (revokeCommand_Run c store).1
                 = [CallRevokeModel user access uuids; CallClose]
              /\ run_result (revokeCommand_Run c store).1
                 = ProcessBlockedError (RevokeModel client user access uuids))
        /\ (forall e,
              (accessCommand_modelUUIDs (revoke_accessCommand c) store).1 = Err e ->
              (revokeCommand_Run c store).1
              = {| run_result := Err e; run_calls := [CallClose] |})
        /\ (forall user access uuids,
              CallGrantModel user access uuids
              ∉ run_calls (revokeCommand_Run c store).1)).
Proof.
  split.
  - intros e Hapi. unfold revokeCommand_Run. rewrite Hapi. reflexivity.
  - intros client Hapi. unfold revokeCommand_Run. rewrite Hapi.
    destruct (accessCommand_modelUUIDs (revoke_accessCommand c) store)
      as [[uuids|e| |] store']; cbn [fst snd run_calls run_result];
      (split; [reflexivity|]); (split; [reflexivity|]); (split; [reflexivity|]);
      (split; [|split]).
    all: try (intros user access ids Hin;
              repeat (apply elem_of_cons in Hin as [Hin|Hin]; try discriminate);
              try (inversion Hin; fail)).
    all: try (intros e' [=]; subst; reflexivity).
    all: try discriminate.
    injection Hin as -> -> ->. auto.
Qed.

End ModelUUIDs.

(** * The further properties, run *)

(** [addUnit] on a service with the key "svc". *)
Lemma addUnit_short_key_panics_witness :
  Service_addUnit (H := Sample.collaborators) Edge.short "" Edge.short_deployed
  = (Panic, Edge.short_deployed).
Proof.
  apply (addUnit_short_key_panics (H := Sample.collaborators) Edge.short ""
           Edge.short_deployed "local:series/short-1").
  - vm_compute. reflexivity.
  - vm_compute. lia.
Defined.

(** [addUnit] on the deployment without its topology document. *)
Lemma addUnit_keeps_the_node_on_failure_witness :
  Service_addUnit (H := Sample.collaborators) Sample.wordpress "" Edge.no_topology
  = (Err (Context (addUnit_context Sample.wordpress) (ZkError ZNONODE)),
     with_unit_node (H := Sample.collaborators) Sample.wordpress
       "local:series/wordpress-1" Edge.no_topology)
  /\ is_Some (nodes (with_unit_node (H := Sample.collaborators) Sample.wordpress
                       "local:series/wordpress-1" Edge.no_topology)
                !! "/services/service-0000000000/units/unit-0000000000-0000000000").
Proof.
  destruct (addUnit_keeps_the_node_on_failure (H := Sample.collaborators)
              Sample.wordpress "" Edge.no_topology "local:series/wordpress-1")
    as (_ & Hmissing).
  - vm_compute. reflexivity.
  - vm_compute. lia.
  - destruct Hmissing as (Hrun & Hnode & _).
    + vm_compute. reflexivity.
    + vm_compute. lia.
    + split; [exact Hrun|]. vm_compute. eauto.
Defined.

(** The first unit of [wordpress] and the topology document. *)
Lemma addUnit_registers_the_unit_witness :
  exists t' stamp record,
    nodes Edge.one_unit !! zkTopologyPath
    = Some {| data := Topology t'; version := stamp |}
    /\ Units t' !! u_key Sample.unit0 = Some record
    /\ unitPrincipal record = ""
    /\ topoUnit_isPrincipal record = u_isPrincipal Sample.unit0
    /\ topology_HasUnit t' (u_key Sample.unit0) = true
    /\ topology_HasService t' (s_key Sample.wordpress) = true.
Proof.
  apply (addUnit_registers_the_unit (H := Sample.collaborators) Sample.wordpress ""
           Sample.deployed Edge.one_unit Sample.unit0).
  vm_compute. reflexivity.
Defined.

(** A subordinate of [wordpress/1]. *)
Lemma AddUnitSubordinateTo_view_witness :
  u_serviceName Sample.subordinate2 = s_name Sample.logging
  /\ u_isPrincipal Sample.subordinate2 = bool_decide (u_key Sample.unit1 = "").
Proof.
  apply (AddUnitSubordinateTo_view (H := Sample.collaborators) Sample.logging
           Sample.unit1 Sample.running
           (Service_AddUnitSubordinateTo (H := Sample.collaborators) Sample.logging
              Sample.unit1 Sample.running).2
           Sample.subordinate2).
  vm_compute. reflexivity.
Defined.

(** The first unit of [wordpress], looked up as "wordpress/0". *)
Lemma addUnit_then_Unit_witness :
  Service_Unit (H := Sample.collaborators) Sample.wordpress "wordpress/0" Edge.one_unit
  = (Ok Sample.unit0, Edge.one_unit).
Proof.
  apply (addUnit_then_Unit (H := Sample.collaborators) Sample.wordpress ""
           "wordpress/0" Sample.deployed Edge.one_unit Sample.unit0).
  - vm_compute. reflexivity.
  - vm_compute. reflexivity.
  - vm_compute. reflexivity.
Defined.

(** The first unit of [wordpress], listed. *)
Lemma addUnit_then_AllUnits_witness : Sample.unit0 ∈ [Sample.unit0].
Proof.
  apply (addUnit_then_AllUnits (H := Sample.collaborators) Sample.wordpress ""
           "0000000000" Sample.deployed Edge.one_unit Sample.unit0 [Sample.unit0]).
  - vm_compute. reflexivity.
  - reflexivity.
  - reflexivity.
  - vm_compute. reflexivity.
Defined.



(** [wordpress/1] by name and in the list. *)
Lemma Unit_agrees_with_AllUnits_witness : Sample.unit1 = Sample.unit1.
Proof.
  apply (Unit_agrees_with_AllUnits (H := Sample.collaborators) Sample.wordpress
           "wordpress/1" Sample.running Sample.unit1 [Sample.unit1; Sample.unit0]).
  - vm_compute. reflexivity.
  - vm_compute. reflexivity.
  - left.
  - reflexivity.
Defined.

(** Two models for [joe], one of them fetched by a refresh. *)
Lemma modelUUIDs_one_per_name_witness :
  length ["uuid-1"; "uuid-2"] = length (ModelNames SampleAccess.joe).
Proof.
  apply (modelUUIDs_one_per_name (H := SampleAccess.environment) SampleAccess.joe
           SampleAccess.partly_cached
           (accessCommand_modelUUIDs (H := SampleAccess.environment) SampleAccess.joe
              SampleAccess.partly_cached).2).
  vm_compute. reflexivity.
Defined.

(** Two cached models for [joe]. *)
Lemma modelUUIDs_of_known_models_witness :
  accessCommand_modelUUIDs (H := SampleAccess.environment) SampleAccess.joe
    SampleAccess.fully_cached
  = (Ok (known_uuid (H := SampleAccess.environment) SampleAccess.fully_cached
           <$> ModelNames SampleAccess.joe),
     SampleAccess.fully_cached).
Proof.
  apply (modelUUIDs_of_known_models (H := SampleAccess.environment) SampleAccess.joe
           SampleAccess.fully_cached).
  intros name Hname.
  apply elem_of_cons in Hname as [->|Hname]; [vm_compute; exact I|].
  apply elem_of_cons in Hname as [->|Hname]; [vm_compute; exact I|].
  inversion Hname.
Defined.


(** No refresh where a missing model is not a not-found error. *)
Lemma modelUUIDs_refreshes_on_not_found_only_witness :
  (accessCommand_modelUUIDs (H := SampleAccess.strict_environment) SampleAccess.joe
     SampleAccess.partly_cached).2
  = SampleAccess.partly_cached.
Proof.
  apply (modelUUIDs_refreshes_on_not_found_only (H := SampleAccess.strict_environment)
           SampleAccess.joe SampleAccess.partly_cached).
  reflexivity.
Defined.

(** The commands run for [joe]. *)
Example grant_joe :
  (grantCommand_Run (H := SampleAccess.environment)
     {| grant_accessCommand := SampleAccess.joe; grant_api := None |}
     SampleAccess.partly_cached).1
  = {| run_result := Ok tt;
       run_calls := [CallGrantModel "joe" "read" ["uuid-1"; "uuid-2"]; CallClose] |}.
Proof. vm_compute. reflexivity. Qed.

Example revoke_joe_unknown_model :
  run_calls (revokeCommand_Run (H := SampleAccess.environment)
               {| revoke_accessCommand := SampleAccess.joe_unknown; revoke_api := None |}
               SampleAccess.partly_cached).1
  = [CallClose].
Proof. vm_compute. reflexivity. Qed.
